(** * A shallow embedding of [library.py]

    The program is a small in-memory catalogue: a [Library] owns shelves
    keyed by name, a [Shelf] owns books keyed by title, a [Book] counts its
    available and total copies.  Python objects are mutable and shared by
    reference, so the embedding keeps an explicit object store: every
    instance lives at a location of the store and the dictionaries of
    [Library] and [Shelf] hold locations, not copies.  Methods are
    computations in a state-and-exception monad over the store and the
    lines written by [print].

    The attributes are typed as the program uses them: names, titles,
    authors and descriptions are (Python 2, byte) strings, page and copy
    counts are unbounded integers.  The listings ([report_books],
    [report_all_shelves], [report_all_books]) walk a dictionary in an order
    the program does not fix; they take that order as a parameter. *)

From Stdlib Require Import ZArith String Ascii List DecimalString.
From stdpp Require Import base option gmap strings list fin_maps.

Open Scope Z_scope.
Open Scope string_scope.

(** ** Values and objects *)

Definition loc := positive.

(** The Python values the methods are applied to: byte strings, integers,
    [None], and references to instances of the three classes. *)
Inductive value :=
  | VStr (s : string)
  | VInt (z : Z)
  | VNone
  | VRef (l : loc).

(** [class Book]: the attributes set by [__init__].  Titles, authors and
    descriptions are strings and the counters are (unbounded) integers. *)
Record Book := mkBook {
  title : string;
  author : string;
  page_count : Z;
  desc : string;
  _copies : Z;
  _maxcopies : Z
}.

(** [class Shelf]: [name] and the dictionary [_books], title to Book. *)
Record Shelf := mkShelf {
  shelf_name : string;
  _books : gmap string loc
}.

(** [class Library]: [name] and the dictionary [_shelves], name to Shelf. *)
Record Library := mkLibrary {
  library_name : string;
  _shelves : gmap string loc
}.

Inductive object :=
  | OLibrary (x : Library)
  | OShelf (x : Shelf)
  | OBook (x : Book).

(** The store, and the lines printed so far (oldest first). *)
Record world := mkWorld {
  heap : gmap loc object;
  stdout : list string
}.

(** ** Exceptions and the monad *)

Inductive exn :=
  | AttributeError (attr : string)
  | KeyError
  (** not a Python exception: a reference that points to no object, or a
      method applied to an instance of another class *)
  | BadReference.

Inductive outcome (A : Type) :=
  | Returns (a : A)
  | Raises (e : exn).
Arguments Returns {A} a.
Arguments Raises {A} e.

Definition M (A : Type) : Type := world -> outcome A * world.

Definition ret {A} (a : A) : M A := fun w => (Returns a, w).

Definition bind {A B} (c : M A) (k : A -> M B) : M B :=
  fun w =>
    match c w with
    | (Returns a, w') => k a w'
    | (Raises e, w') => (Raises e, w')
    end.

Definition raise {A} (e : exn) : M A := fun w => (Raises e, w).

Notation "x <- c ;; k" := (bind c (fun x => k))
  (at level 100, c at next level, right associativity).
Notation "c ;;; k" := (bind c (fun _ => k))
  (at level 100, right associativity).

(** [try: c except AttributeError: h] *)
Definition try_except_AttributeError {A} (c : M A) (h : M A) : M A :=
  fun w =>
    match c w with
    | (Raises (AttributeError _), w') => h w'
    | r => r
    end.

(** [try: c except KeyError: h] *)
Definition try_except_KeyError {A} (c : M A) (h : M A) : M A :=
  fun w =>
    match c w with
    | (Raises KeyError, w') => h w'
    | r => r
    end.

Definition print (line : string) : M unit :=
  fun w => (Returns tt, mkWorld (heap w) (stdout w ++ [line])).

Definition deref (l : loc) : M object :=
  fun w =>
    match heap w !! l with
    | Some o => (Returns o, w)
    | None => (Raises BadReference, w)
    end.

Definition store (l : loc) (o : object) : M unit :=
  fun w => (Returns tt, mkWorld (<[l := o]> (heap w)) (stdout w)).

(** Instance creation: the new object gets a location not yet in use. *)
Definition new (o : object) : M loc :=
  fun w =>
    let l := fresh (dom (heap w)) in
    (Returns l, mkWorld (<[l := o]> (heap w)) (stdout w)).

Definition get_Book (self : loc) : M Book :=
  o <- deref self ;;
  match o with OBook b => ret b | _ => raise BadReference end.

Definition get_Shelf (self : loc) : M Shelf :=
  o <- deref self ;;
  match o with OShelf s => ret s | _ => raise BadReference end.

Definition get_Library (self : loc) : M Library :=
  o <- deref self ;;
  match o with OLibrary x => ret x | _ => raise BadReference end.

(** [for x in args: body x] *)
Fixpoint for_each {A} (args : list A) (body : A -> M unit) : M unit :=
  match args with
  | [] => ret tt
  | x :: rest => body x ;;; for_each rest body
  end.

(** ** Built-in string operations *)

(** [str(n)] for an integer: its decimal digits, with a leading minus sign
    when negative. *)
Definition str_int (z : Z) : string := NilZero.string_of_int (Z.to_int z).

Definition islower (c : ascii) : bool :=
  let n := nat_of_ascii c in (97 <=? n)%nat && (n <=? 122)%nat.

Definition isupper (c : ascii) : bool :=
  let n := nat_of_ascii c in (65 <=? n)%nat && (n <=? 90)%nat.

Definition toupper (c : ascii) : ascii :=
  if islower c then ascii_of_nat (nat_of_ascii c - 32) else c.

Definition tolower (c : ascii) : ascii :=
  if isupper c then ascii_of_nat (nat_of_ascii c + 32) else c.

(** [s.title()] on a byte string: the first cased character of every run of
    letters is upper-cased and the other letters of the run lower-cased;
    only the ASCII letters are cased. *)
Fixpoint title_from (previous_is_cased : bool) (s : string) : string :=
  match s with
  | EmptyString => EmptyString
  | String c rest =>
      if islower c then
        String (if previous_is_cased then c else toupper c)
               (title_from true rest)
      else if isupper c then
        String (if previous_is_cased then tolower c else c)
               (title_from true rest)
      else String c (title_from false rest)
  end.

Definition str_title (s : string) : string := title_from false s.

(** ** class Book *)

Definition set_copies (b : Book) (v : Z) : Book :=
  mkBook (title b) (author b) (page_count b) (desc b) v (_maxcopies b).

Definition set_maxcopies (b : Book) (v : Z) : Book :=
  mkBook (title b) (author b) (page_count b) (desc b) (_copies b) v.

(** [Book(title, author, page_count, desc, copies)]; the defaults of the
    source are [author=""], [page_count=0], [desc=""], [copies=1]. *)
Definition Book_init (title author : string) (page_count : Z)
    (desc : string) (copies : Z) : M loc :=
  new (OBook (mkBook title author page_count desc copies copies)).

(** [Book(title)] with every default. *)
Definition Book_init1 (title : string) : M loc :=
  Book_init title "" 0 "" 1.

Definition newline : string := String (ascii_of_nat 10) EmptyString.

Definition copy_str (self : loc) : M string :=
  b <- get_Book self ;;
  ret (str_int (_copies b) ++ " / " ++ str_int (_maxcopies b)).

Definition Book_str (self : loc) : M string :=
  b <- get_Book self ;;
  copies <- copy_str self ;;
  ret ("Title: " ++ title b ++ newline ++
       "Author: " ++ author b ++ newline ++
       "Pages: " ++ str_int (page_count b) ++ newline ++
       "Copies: " ++ copies ++ newline ++
       "Description: " ++ desc b).

Definition add_copy (self : loc) : M unit :=
  b <- get_Book self ;;
  store self (OBook (set_copies b (_copies b + 1))) ;;;
  b <- get_Book self ;;
  store self (OBook (set_maxcopies b (_maxcopies b + 1))).

Definition report_copies (self : loc) : M unit :=
  b <- get_Book self ;;
  copies <- copy_str self ;;
  print (title b ++ " now has " ++ copies ++ " copies.").

Definition check_out (self : loc) : M unit :=
  b <- get_Book self ;;
  if negb (_copies b =? 0)%Z then
    store self (OBook (set_copies b (_copies b - 1))) ;;;
    report_copies self
  else
    print ("Cannot check out " ++ title b ++ ": no more copies!").

Definition check_in (self : loc) : M unit :=
  b <- get_Book self ;;
  if (_copies b <? _maxcopies b)%Z then
    store self (OBook (set_copies b (_copies b + 1))) ;;;
    report_copies self
  else
    print ("All copies of " ++ title b ++ " already accounted for!").

(** [str(v)] *)
Definition py_str (v : value) : M string :=
  match v with
  | VStr s => ret s
  | VInt z => ret (str_int z)
  | VNone => ret "None"
  | VRef l =>
      o <- deref l ;;
      match o with
      | OBook _ => Book_str l
      | OShelf s => ret (shelf_name s)
      | OLibrary x => ret (library_name x)
      end
  end.

(** ** Dictionaries

    The dictionaries of the program only ever receive string keys, while
    the lookups take whatever value the caller passes.  A value that is not
    a string is equal to no string key (instances hash and compare by
    identity), so it is in no such dictionary. *)
Definition dict_get {V} (d : gmap string V) (k : value) : option V :=
  match k with
  | VStr s => d !! s
  | _ => None
  end.

Definition dict_del {V} (d : gmap string V) (k : value) : gmap string V :=
  match k with
  | VStr s => delete s d
  | _ => d
  end.

(** ** class Shelf *)

(** [Shelf(name)] *)
Definition Shelf_init (name : string) : M loc :=
  new (OShelf (mkShelf name ∅)).

Definition set_books (s : Shelf) (d : gmap string loc) : Shelf :=
  mkShelf (shelf_name s) d.

Definition not_found_in_shelf (title : value) (s : Shelf) : M unit :=
  t <- py_str title ;;
  print (t ++ " not found in " ++ shelf_name s ++ "!").

Definition get_book (self : loc) (title : value) : M value :=
  s <- get_Shelf self ;;
  match dict_get (_books s) title with
  | Some l => ret (VRef l)
  | None => not_found_in_shelf title s ;;; ret VNone
  end.

(** [isinstance(v, Book)] *)
Definition isinstance_Book (v : value) : M (option loc) :=
  match v with
  | VRef l =>
      o <- deref l ;;
      match o with
      | OBook _ => ret (Some l)
      | _ => ret None
      end
  | _ => ret None
  end.

(** The first half of the loop body of [add_books]: the key and the Book
    for one element of [args].  A Book instance is taken as it is, under
    its own title; anything else is stringified and title-cased, and a new
    Book of that title is created. *)
Definition key_and_book (book : value) : M (string * loc) :=
  is_book <- isinstance_Book book ;;
  match is_book with
  | Some l =>
      b <- get_Book l ;;
      ret (title b, l)
  | None =>
      label <- py_str book ;;
      let book_key := str_title label in
      book_to_add <- Book_init1 book_key ;;
      ret (book_key, book_to_add)
  end.

(** The body of the loop of [add_books], for one element of [args]. *)
Definition add_books_body (self : loc) (book : value) : M unit :=
  kb <- key_and_book book ;;
  let (book_key, book_to_add) := kb : string * loc in
  s <- get_Shelf self ;;
  match _books s !! book_key with
  | Some existing => add_copy existing
  | None =>
      store self
        (OShelf (set_books s (<[book_key := book_to_add]> (_books s))))
  end.

Definition add_books (self : loc) (args : list value) : M unit :=
  for_each args (add_books_body self).

Definition remove_book (self : loc) (title : value) : M unit :=
  s <- get_Shelf self ;;
  match dict_get (_books s) title with
  | Some _ => store self (OShelf (set_books s (dict_del (_books s) title)))
  | None => not_found_in_shelf title s
  end.

(** ** class Library *)

(** [Library(name)] *)
Definition Library_init (name : string) : M loc :=
  new (OLibrary (mkLibrary name ∅)).

Definition set_shelves (x : Library) (d : gmap string loc) : Library :=
  mkLibrary (library_name x) d.

(** [shelf_key = shelf.name; shelf_to_add = shelf]: instances of [Shelf]
    and of [Library] have the attribute [name], nothing else has. *)
Definition shelf_by_name (shelf : value) : M (string * loc) :=
  match shelf with
  | VRef l =>
      o <- deref l ;;
      match o with
      | OShelf s => ret (shelf_name s, l)
      | OLibrary x => ret (library_name x, l)
      | OBook _ => raise (AttributeError "name")
      end
  | _ => raise (AttributeError "name")
  end.

(** The first half of the loop body of [add_shelves]: the key and the
    shelf for one element of [args]; what has no [name] is stringified
    into the name of a new Shelf. *)
Definition key_and_shelf (shelf : value) : M (string * loc) :=
  try_except_AttributeError
    (shelf_by_name shelf)
    (shelf_key <- py_str shelf ;;
     shelf_to_add <- Shelf_init shelf_key ;;
     ret (shelf_key, shelf_to_add)).

(** The body of the loop of [add_shelves], for one element of [args]. *)
Definition add_shelves_body (self : loc) (shelf : value) : M unit :=
  ks <- key_and_shelf shelf ;;
  let (shelf_key, shelf_to_add) := ks : string * loc in
  x <- get_Library self ;;
  match _shelves x !! shelf_key with
  | None =>
      store self
        (OLibrary (set_shelves x (<[shelf_key := shelf_to_add]> (_shelves x))))
  | Some _ =>
      print ("Cannot add '" ++ shelf_key ++ "': shelf already exists!")
  end.

Definition add_shelves (self : loc) (args : list value) : M unit :=
  for_each args (add_shelves_body self).

Definition get_shelf (self : loc) (shelf_name : value) : M value :=
  x <- get_Library self ;;
  try_except_KeyError
    (match dict_get (_shelves x) shelf_name with
     | Some l => ret (VRef l)
     | None => raise KeyError
     end)
    (n <- py_str shelf_name ;;
     print ("Shelf named " ++ n ++ " not found in " ++ library_name x) ;;;
     ret VNone).

(** ** Attribute lookup for [Book.enshelf] and [Book.unshelf]

    [shelf.attr(arg)] looks [attr] up in the class of the receiver.  The
    tables list the methods of each class that take one argument besides
    [self]; a name that is in none of them raises [AttributeError].  The
    table of [Book] is the one in force for the two names looked up below,
    [add_book] and [remove_book]: [Book] defines neither. *)
Definition Shelf_method (attr : string)
    : option (loc -> value -> M value) :=
  if decide (attr = "get_book") then Some get_book
  else if decide (attr = "add_books") then
    Some (fun self v => add_books self [v] ;;; ret VNone)
  else if decide (attr = "remove_book") then
    Some (fun self v => remove_book self v ;;; ret VNone)
  else None.

Definition Library_method (attr : string)
    : option (loc -> value -> M value) :=
  if decide (attr = "add_shelves") then
    Some (fun self v => add_shelves self [v] ;;; ret VNone)
  else if decide (attr = "get_shelf") then Some get_shelf
  else None.

Definition Book_method (attr : string)
    : option (loc -> value -> M value) := None.

Definition call_method (recv : value) (attr : string) (arg : value)
    : M value :=
  match recv with
  | VRef l =>
      o <- deref l ;;
      let table :=
        match o with
        | OShelf _ => Shelf_method
        | OLibrary _ => Library_method
        | OBook _ => Book_method
        end in
      match table attr with
      | Some m => m l arg
      | None => raise (AttributeError attr)
      end
  | _ => raise (AttributeError attr)
  end.

(** [shelf.add_book(self)] *)
Definition enshelf (self : loc) (shelf : value) : M unit :=
  call_method shelf "add_book" (VRef self) ;;; ret tt.

(** [shelf.remove_book(self)] *)
Definition unshelf (self : loc) (shelf : value) : M unit :=
  call_method shelf "remove_book" (VRef self) ;;; ret tt.

(** ** Sequences of copy operations on one Book *)

Inductive book_op :=
  | OpAddCopy
  | OpCheckOut
  | OpCheckIn.

Definition run_op (self : loc) (op : book_op) : M unit :=
  match op with
  | OpAddCopy => add_copy self
  | OpCheckOut => check_out self
  | OpCheckIn => check_in self
  end.

Definition run_ops (self : loc) (ops : list book_op) : M unit :=
  for_each ops (run_op self).

(** [0 <= available <= total] *)
Definition copies_invariant (b : Book) : Prop :=
  0 <= _copies b <= _maxcopies b.

(** ** The notices

    The program reports its conditions by printing a line.  These are the
    lines, named after the conditions. *)

(** printed by the else-branch of [check_out] *)
Definition OutOfStock (title : string) : string :=
  "Cannot check out " ++ title ++ ": no more copies!".

(** printed by the else-branch of [check_in] *)
Definition AllCopiesPresent (title : string) : string :=
  "All copies of " ++ title ++ " already accounted for!".

(** printed by the else-branch of [add_shelves] *)
Definition DuplicateShelf (shelf_key : string) : string :=
  "Cannot add '" ++ shelf_key ++ "': shelf already exists!".

(** printed by [report_copies] after a check-out or check-in took place *)
Definition copies_report (b : Book) : string :=
  title b ++ " now has " ++
  (str_int (_copies b) ++ " / " ++ str_int (_maxcopies b)) ++ " copies.".

(** The Book [b] with [n] more available and [m] more total copies. *)
Definition with_copies (b : Book) (n m : Z) : Book :=
  mkBook (title b) (author b) (page_count b) (desc b)
         (_copies b + n) (_maxcopies b + m).

(** ** Frames *)

(** [w1] extends [w]: same output, and every object of [w] is unchanged. *)
Definition extends (w w1 : world) : Prop :=
  stdout w1 = stdout w /\
  forall l o, heap w !! l = Some o -> heap w1 !! l = Some o.

(** ** Sample worlds *)

Definition w0 : world := mkWorld ∅ [].

Definition dune (copies maxcopies : Z) : Book :=
  mkBook "Dune" "Frank Herbert" 412 "" copies maxcopies.

(** A store that holds one Book, at location 1. *)
Definition one_book (b : Book) : world :=
  mkWorld {[ 1%positive := OBook b ]} [].

Definition the_scar (copies : Z) : Book :=
  mkBook "The Scar" "China Mieville" 608 "" copies copies.

Definition fantasy : Shelf :=
  mkShelf "Fantasy" {[ "The Scar" := 2%positive ]}.

(** The shelf "Fantasy" at location 1 with "The Scar" on it, the Book at
    location 2, and at location 3 another Book instance of the same title
    that is on no shelf. *)
Definition fantasy_world : world :=
  mkWorld {[ 1%positive := OShelf fantasy;
             2%positive := OBook (the_scar 1);
             3%positive := OBook (mkBook "The Scar" "" 0 "" 5 5) ]} [].

(** "Fantasy" and its Books as in [fantasy_world], and at location 4 a
    Library that holds the shelf under its name. *)
Definition bellevue : Library :=
  mkLibrary "Bellevue Public Library" {[ "Fantasy" := 1%positive ]}.

Definition bellevue_world : world :=
  mkWorld (<[4%positive := OLibrary bellevue]> (heap fantasy_world)) [].

Definition science_fiction (books : gmap string loc) : Shelf :=
  mkShelf "Science Fiction" books.

(** The shelf "Science Fiction" at location 1 and the Book "Dune" at
    location 2, not on the shelf. *)
Definition dune_off_shelf : world :=
  mkWorld {[ 1%positive := OShelf (science_fiction ∅);
             2%positive := OBook (dune 1 1) ]} [].

(** The same with "Dune" on the shelf. *)
Definition dune_on_shelf : world :=
  mkWorld {[ 1%positive :=
               OShelf (science_fiction {[ "Dune" := 2%positive ]});
             2%positive := OBook (dune 1 1) ]} [].

(** ** Fixed-width formatting *)

Fixpoint spaces (n : nat) : string :=
  match n with
  | O => EmptyString
  | S n' => String " " (spaces n')
  end.

(** ["{:<width}".format(s)]: padded on the right up to [width], never cut. *)
Definition format_left (width : nat) (s : string) : string :=
  s ++ spaces (width - String.length s)%nat.

(** ["{:^width}".format(s)]: padded on both sides up to [width], the left
    margin being the smaller when the padding is odd; never cut. *)
Definition format_center (width : nat) (s : string) : string :=
  let total := (width - String.length s)%nat in
  let left := (total / 2)%nat in
  spaces left ++ s ++ spaces (total - left)%nat.

(** ** The listings

    [Book.report], [Shelf.report_books], [Library.report_all_shelves] and
    [Library.report_all_books]. *)

Definition report (self : loc) : M string :=
  b <- get_Book self ;;
  copies <- copy_str self ;;
  ret ("+ " ++ format_left 30 (title b) ++ " | " ++
       format_left 30 (author b) ++ " | " ++
       format_center 10 copies ++ " +").

(** [book.report()] for a value of a dictionary: only a Book has the
    method. *)
Definition call_report (book : loc) : M string :=
  o <- deref book ;;
  match o with
  | OBook _ => report book
  | _ => raise (AttributeError "report")
  end.

(** The line at the top of the table of [report_all_books]. *)
Definition report_header : string :=
  "+ " ++ format_center 30 "Title" ++ " | " ++
  format_center 30 "Author" ++ " | " ++
  format_center 10 "Copies" ++ " +".

Section Listings.

(** The order in which a dictionary yields its items is not fixed by the
    program (it is the hash order of the interpreter), so the listings
    take it as a parameter; keys and values come in the same order. *)
Variable iteritems : gmap string loc -> list (string * loc).

Definition report_books (self : loc) : M unit :=
  s <- get_Shelf self ;;
  for_each (iteritems (_books s)).*2
    (fun book => line <- call_report book ;; print line).

(** [shelf.report_books()] for a value of a dictionary: only a Shelf has
    the method. *)
Definition call_report_books (shelf : loc) : M unit :=
  o <- deref shelf ;;
  match o with
  | OShelf _ => report_books shelf
  | _ => raise (AttributeError "report_books")
  end.

Definition report_all_shelves (self : loc) : M unit :=
  x <- get_Library self ;;
  for_each (iteritems (_shelves x)).*1 print.

Definition report_all_books (self : loc) : M unit :=
  x <- get_Library self ;;
  library <- py_str (VRef self) ;;
  print ("= All Books at " ++ library ++ " =") ;;;
  print report_header ;;;
  for_each (iteritems (_shelves x)).*2
    (fun shelf =>
       name <- py_str (VRef shelf) ;;
       print ("Shelf - " ++ name) ;;;
       call_report_books shelf).

End Listings.

(** ** Invariants and measures used in the properties *)

(** The number of [add_copy] calls in a sequence of operations. *)
Fixpoint added_copies (ops : list book_op) : Z :=
  match ops with
  | [] => 0
  | OpAddCopy :: rest => 1 + added_copies rest
  | _ :: rest => added_copies rest
  end.

(** Every entry of the shelf is a Book of the store, filed under its own
    title. *)
Definition filed_under_title (w : world) (s : Shelf) : Prop :=
  forall key l,
    _books s !! key = Some l ->
    exists b, heap w !! l = Some (OBook b) /\ title b = key.

(** A value that refers to an object of the store, or to none at all. *)
Definition value_ok (w : world) (v : value) : Prop :=
  match v with
  | VRef l => is_Some (heap w !! l)
  | _ => True
  end.

(** The line printed when a title is not on a shelf. *)
Definition NotFound (title shelf : string) : string :=
  title ++ " not found in " ++ shelf ++ "!".

(** The line printed when a name is not in a library. *)
Definition ShelfNotFound (shelf library : string) : string :=
  "Shelf named " ++ shelf ++ " not found in " ++ library.


(** [str(v)] for a value that is no instance: it needs no store. *)
Definition literal_str (v : value) : option string :=
  match v with
  | VStr s => Some s
  | VInt z => Some (str_int z)
  | VNone => Some "None"
  | VRef _ => None
  end.

(** The line [report] returns for a Book. *)
Definition report_line (b : Book) : string :=
  "+ " ++ format_left 30 (title b) ++ " | " ++
  format_left 30 (author b) ++ " | " ++
  format_center 10 (str_int (_copies b) ++ " / " ++ str_int (_maxcopies b))
  ++ " +".

(** The order in which stdpp lists a map, as one possible order of
    iteration. *)
Definition key_order (d : gmap string loc) : list (string * loc) :=
  map_to_list d.


(** The text [str] gives for a Book. *)
Definition Book_text (b : Book) : string :=
  "Title: " ++ title b ++ newline ++
  "Author: " ++ author b ++ newline ++
  "Pages: " ++ str_int (page_count b) ++ newline ++
  "Copies: " ++ (str_int (_copies b) ++ " / " ++ str_int (_maxcopies b))
  ++ newline ++
  "Description: " ++ desc b.

(** ** Proof automation *)

(** Expose the state passing of the store accessors. *)
Ltac unfold_monad :=
  unfold get_Book, get_Shelf, get_Library in *;
  unfold bind, ret, raise, deref in *.

(** * Properties *)

(** ** The sample worlds are built by the program *)

Example dune_off_shelf_built :
  (shelf <- Shelf_init "Science Fiction" ;;
   book <- Book_init "Dune" "Frank Herbert" 412 "" 1 ;;
   ret (shelf, book)) w0
  = (Returns (1%positive, 2%positive), dune_off_shelf).
Proof. vm_compute. reflexivity. Qed.

Example fantasy_world_built :
  (shelf <- Shelf_init "Fantasy" ;;
   book <- Book_init "The Scar" "China Mieville" 608 "" 1 ;;
   add_books shelf [VRef book] ;;;
   other <- Book_init "The Scar" "" 0 "" 5 ;;
   ret (shelf, book, other)) w0
  = (Returns (1%positive, 2%positive, 3%positive), fantasy_world).
Proof. vm_compute. reflexivity. Qed.

Example bellevue_world_built :
  (library <- Library_init "Bellevue Public Library" ;;
   add_shelves library [VRef 1%positive] ;;;
   ret library) fantasy_world
  = (Returns 4%positive, bellevue_world).
Proof. vm_compute. reflexivity. Qed.

(** The run of the spec: a Book with the default single copy is checked
    out, checked out again in vain, and checked in. *)
Example lord_of_the_rings_run :
  (book <- Book_init1 "The Lord of the Rings" ;;
   check_out book ;;; check_out book ;;; check_in book) w0
  = (Returns tt,
     mkWorld {[ 1%positive :=
                  OBook (mkBook "The Lord of the Rings" "" 0 "" 1 1) ]}
       ["The Lord of the Rings now has 0 / 1 copies.";
        OutOfStock "The Lord of the Rings";
        "The Lord of the Rings now has 1 / 1 copies."]).
Proof. vm_compute. reflexivity. Qed.

(** The run of the spec on a shelf: a second "The Scar" adds a copy and
    no entry. *)
Example the_scar_twice :
  exists w s,
    (shelf <- Shelf_init "Fantasy" ;;
     book1 <- Book_init "A Game of Thrones" "George R. R. Martin" 864 "" 2 ;;
     add_books shelf [VRef book1; VStr "The Scar"] ;;;
     add_books shelf [VStr "The Scar"] ;;;
     get_book shelf (VStr "The Scar")) w0
    = (Returns (VRef 3%positive), w) /\
    heap w !! 3%positive = Some (OBook (mkBook "The Scar" "" 0 "" 2 2)) /\
    heap w !! 1%positive = Some (OShelf s) /\
    size (_books s) = 2%nat.
Proof. eexists _, _. vm_compute. repeat split. Qed.

(** The run of the spec on a library: the second "Fantasy" is refused. *)
Example fantasy_twice :
  exists w x,
    (library <- Library_init "Bellevue Public Library" ;;
     add_shelves library [VStr "Fantasy"; VStr "Fantasy"]) w0
    = (Returns tt, w) /\
    stdout w = [DuplicateShelf "Fantasy"] /\
    heap w !! 1%positive = Some (OLibrary x) /\
    size (_shelves x) = 1%nat.
Proof. eexists _, _. vm_compute. repeat split. Qed.

(** [str.title] on the labels of the driver. *)
Example str_title_examples :
  str_title "the scar" = "The Scar" /\
  str_title "a game of THRONES" = "A Game Of Thrones" /\
  str_title "o'neil x2y" = "O'Neil X2Y".
Proof. repeat split. Qed.

(** ** The monad and the store *)

Lemma bind_returns {A B} (c : M A) (k : A -> M B) w a w1 :
  c w = (Returns a, w1) -> bind c k w = k a w1.
Proof. intros H. unfold bind. now rewrite H. Qed.

Lemma bind_raises {A B} (c : M A) (k : A -> M B) w e w1 :
  c w = (Raises e, w1) -> bind c k w = (Raises e, w1).
Proof. intros H. unfold bind. now rewrite H. Qed.

Lemma get_Book_returns w l b :
  heap w !! l = Some (OBook b) -> get_Book l w = (Returns b, w).
Proof. intros H. unfold get_Book, bind, deref. now rewrite H. Qed.

Lemma get_Shelf_returns w l s :
  heap w !! l = Some (OShelf s) -> get_Shelf l w = (Returns s, w).
Proof. intros H. unfold get_Shelf, bind, deref. now rewrite H. Qed.

Lemma get_Library_returns w l x :
  heap w !! l = Some (OLibrary x) -> get_Library l w = (Returns x, w).
Proof. intros H. unfold get_Library, bind, deref. now rewrite H. Qed.

Lemma fresh_loc_unused (h : gmap loc object) : h !! fresh (dom h) = None.
Proof. apply not_elem_of_dom, is_fresh. Qed.

Lemma for_each_single {A} (x : A) (body : A -> M unit) w :
  for_each [x] body w = body x w.
Proof.
  simpl. unfold bind, ret.
  destruct (body x w) as [[[]|e] w1]; reflexivity.
Qed.

(** The turn of one item after the items before it: a call with several
    arguments runs the loop body once for each, from the state the
    earlier ones left. *)
Lemma for_each_snoc {A} (xs : list A) (x : A) (body : A -> M unit) :
  forall w w1,
    for_each xs body w = (Returns tt, w1) ->
    for_each (xs ++ [x]) body w = body x w1.
Proof.
  induction xs as [|y ys IH]; intros w w1 H.
  - injection H as <-. apply for_each_single.
  - cbn [for_each app] in *. unfold bind in *.
    destruct (body y w) as [[[]|e] wy]; [|discriminate].
    now apply IH.
Qed.

(** ** class Book *)

Lemma copy_str_returns w l b :
  heap w !! l = Some (OBook b) ->
  copy_str l w =
  (Returns (str_int (_copies b) ++ " / " ++ str_int (_maxcopies b)), w).
Proof.
  intros H. unfold copy_str.
  now rewrite (bind_returns _ _ _ _ _ (get_Book_returns _ _ _ H)).
Qed.

Lemma report_copies_returns w l b :
  heap w !! l = Some (OBook b) ->
  report_copies l w =
  (Returns tt, mkWorld (heap w) (stdout w ++ [copies_report b])).
Proof.
  intros H. unfold report_copies.
  rewrite (bind_returns _ _ _ _ _ (get_Book_returns _ _ _ H)).
  now rewrite (bind_returns _ _ _ _ _ (copy_str_returns _ _ _ H)).
Qed.

Lemma add_copy_returns w l b :
  heap w !! l = Some (OBook b) ->
  add_copy l w =
  (Returns tt, mkWorld (<[l := OBook (with_copies b 1 1)]> (heap w)) (stdout w)).
Proof.
  intros H. unfold add_copy.
  rewrite (bind_returns _ _ _ _ _ (get_Book_returns _ _ _ H)).
  erewrite (bind_returns (store _ _)); [|reflexivity].
  erewrite (bind_returns (get_Book _));
    [|apply get_Book_returns; cbn; apply lookup_insert_eq].
  unfold store. cbn. now rewrite insert_insert_eq.
Qed.

Lemma check_out_nonzero w l b :
  _copies b <> 0 ->
  heap w !! l = Some (OBook b) ->
  check_out l w =
  (Returns tt,
   mkWorld (<[l := OBook (with_copies b (-1) 0)]> (heap w))
           (stdout w ++ [copies_report (with_copies b (-1) 0)])).
Proof.
  intros Hc H. unfold check_out.
  rewrite (bind_returns _ _ _ _ _ (get_Book_returns _ _ _ H)).
  destruct (Z.eqb_spec (_copies b) 0) as [|_]; [contradiction|]. cbn [negb].
  unfold bind, store.
  rewrite (report_copies_returns _ l (with_copies b (-1) 0)).
  - cbn. unfold with_copies. now rewrite Z.add_0_r.
  - cbn. rewrite lookup_insert_eq. unfold with_copies, set_copies.
    now rewrite Z.add_0_r.
Qed.

Lemma check_out_zero w l b :
  _copies b = 0 ->
  heap w !! l = Some (OBook b) ->
  check_out l w =
  (Returns tt, mkWorld (heap w) (stdout w ++ [OutOfStock (title b)])).
Proof.
  intros Hc H. unfold check_out.
  rewrite (bind_returns _ _ _ _ _ (get_Book_returns _ _ _ H)).
  rewrite Hc. reflexivity.
Qed.

Lemma check_in_below w l b :
  _copies b < _maxcopies b ->
  heap w !! l = Some (OBook b) ->
  check_in l w =
  (Returns tt,
   mkWorld (<[l := OBook (with_copies b 1 0)]> (heap w))
           (stdout w ++ [copies_report (with_copies b 1 0)])).
Proof.
  intros Hc H. unfold check_in.
  rewrite (bind_returns _ _ _ _ _ (get_Book_returns _ _ _ H)).
  destruct (Z.ltb_spec (_copies b) (_maxcopies b)) as [_|]; [|lia].
  unfold bind, store.
  rewrite (report_copies_returns _ l (with_copies b 1 0)).
  - cbn. unfold with_copies. now rewrite Z.add_0_r.
  - cbn. rewrite lookup_insert_eq. unfold with_copies, set_copies.
    now rewrite Z.add_0_r.
Qed.

Lemma check_in_full w l b :
  _maxcopies b <= _copies b ->
  heap w !! l = Some (OBook b) ->
  check_in l w =
  (Returns tt, mkWorld (heap w) (stdout w ++ [AllCopiesPresent (title b)])).
Proof.
  intros Hc H. unfold check_in.
  rewrite (bind_returns _ _ _ _ _ (get_Book_returns _ _ _ H)).
  destruct (Z.ltb_spec (_copies b) (_maxcopies b)) as [|_]; [lia|].
  reflexivity.
Qed.

Lemma run_op_invariant op w l b :
  heap w !! l = Some (OBook b) ->
  copies_invariant b ->
  exists w' b',
    run_op l op w = (Returns tt, w') /\
    heap w' !! l = Some (OBook b') /\
    copies_invariant b'.
Proof.
  unfold copies_invariant. intros H Hinv. destruct op; cbn [run_op].
  - eexists _, _. split; [apply add_copy_returns; exact H|].
    cbn. rewrite lookup_insert_eq. split; [reflexivity|]. cbn. lia.
  - destruct (Z.eq_dec (_copies b) 0) as [Hz|Hnz].
    + eexists _, b. split; [apply check_out_zero; [exact Hz|exact H]|]. now cbn.
    + eexists _, _. split; [apply check_out_nonzero; [exact Hnz|exact H]|].
      cbn. rewrite lookup_insert_eq. split; [reflexivity|]. cbn. lia.
  - destruct (Z_lt_le_dec (_copies b) (_maxcopies b)) as [Hlt|Hge].
    + eexists _, _. split; [apply check_in_below; [exact Hlt|exact H]|].
      cbn. rewrite lookup_insert_eq. split; [reflexivity|]. cbn. lia.
    + eexists _, b. split; [apply check_in_full; [exact Hge|exact H]|]. now cbn.
Qed.

Lemma run_ops_invariant ops : forall w l b,
  heap w !! l = Some (OBook b) ->
  copies_invariant b ->
  exists w' b',
    run_ops l ops w = (Returns tt, w') /\
    heap w' !! l = Some (OBook b') /\
    copies_invariant b'.
Proof.
  induction ops as [|op ops IH]; intros w l b H Hinv.
  - exists w, b. now split.
  - destruct (run_op_invariant op w l b H Hinv) as (w1 & b1 & Hrun & H1 & Hinv1).
    destruct (IH w1 l b1 H1 Hinv1) as (w2 & b2 & Hrest & H2 & Hinv2).
    exists w2, b2. split; [|now split].
    unfold run_ops. cbn [for_each].
    now rewrite (bind_returns _ _ _ _ _ Hrun).
Qed.

(** C1.  A Book created with [copies >= 0] satisfies
    [0 <= available_copies <= total_copies] after every sequence of
    [add_copy], [check_out] and [check_in] calls on it, and every such
    sequence runs to its end. *)
Theorem copies_invariant_preserved
    (w : world) (title author : string) (page_count : Z) (desc : string)
    (copies : Z) (ops : list book_op) :
  0 <= copies ->
  exists self w1 w2 b,
    Book_init title author page_count desc copies w = (Returns self, w1) /\
    run_ops self ops w1 = (Returns tt, w2) /\
    heap w2 !! self = Some (OBook b) /\
    copies_invariant b.
Proof.
  intros Hc.
  set (b0 := mkBook title author page_count desc copies copies).
  set (self := fresh (dom (heap w))).
  set (w1 := mkWorld (<[self := OBook b0]> (heap w)) (stdout w)).
  destruct (run_ops_invariant ops w1 self b0) as (w2 & b & Hrun & H2 & Hinv).
  - cbn. apply lookup_insert_eq.
  - unfold copies_invariant. cbn. lia.
  - exists self, w1, w2, b.
    split; [reflexivity|]. split; [exact Hrun|]. split; [exact H2|exact Hinv].
Qed.

Lemma copies_invariant_preserved_witness :
  exists self w1 w2 b,
    Book_init "Dune" "" 0 "" 2 w0 = (Returns self, w1) /\
    run_ops self [OpCheckOut; OpCheckOut; OpCheckOut; OpCheckIn; OpAddCopy]
            w1 = (Returns tt, w2) /\
    heap w2 !! self = Some (OBook b) /\
    copies_invariant b.
Proof. apply copies_invariant_preserved. lia. Defined.

(** C2.  [check_out] on a Book with no available copy changes nothing in
    the store and prints the [OutOfStock] notice; on a Book with a
    strictly positive number of available copies it lowers that number by
    one, leaves the total alone and prints the copies report. *)
Theorem check_out_spec (w : world) (self : loc) (b : Book) :
  heap w !! self = Some (OBook b) ->
  (_copies b = 0 ->
   check_out self w =
   (Returns tt, mkWorld (heap w) (stdout w ++ [OutOfStock (title b)]))) /\
  (0 < _copies b ->
   exists w' b',
     check_out self w = (Returns tt, w') /\
     heap w' !! self = Some (OBook b') /\
     _copies b' = _copies b - 1 /\
     _maxcopies b' = _maxcopies b /\
     stdout w' = (stdout w ++ [copies_report b'])%list).
Proof.
  intros H. split; intros Hc.
  - now apply check_out_zero.
  - eexists _, _. split; [apply (check_out_nonzero w self b); [lia|exact H]|].
    cbn. rewrite lookup_insert_eq. repeat split; cbn; lia.
Qed.

Lemma check_out_spec_witness :
  check_out 1%positive (one_book (dune 0 1)) =
  (Returns tt, mkWorld (heap (one_book (dune 0 1))) [OutOfStock "Dune"]) /\
  exists w' b',
    check_out 1%positive (one_book (dune 2 3)) = (Returns tt, w') /\
    heap w' !! 1%positive = Some (OBook b') /\
    _copies b' = 1 /\
    _maxcopies b' = 3 /\
    stdout w' = [copies_report b'].
Proof.
  split.
  - apply (check_out_spec (one_book (dune 0 1)) 1%positive (dune 0 1)); reflexivity.
  - apply (check_out_spec (one_book (dune 2 3)) 1%positive (dune 2 3));
      [reflexivity | cbn; lia].
Defined.

(** C3.  [check_in] on a Book whose available copies equal its total
    changes nothing in the store and prints the [AllCopiesPresent] notice;
    on a Book with fewer available copies than its total it raises the
    available number by one, leaves the total alone and prints the copies
    report. *)
Theorem check_in_spec (w : world) (self : loc) (b : Book) :
  heap w !! self = Some (OBook b) ->
  (_copies b = _maxcopies b ->
   check_in self w =
   (Returns tt,
    mkWorld (heap w) (stdout w ++ [AllCopiesPresent (title b)]))) /\
  (_copies b < _maxcopies b ->
   exists w' b',
     check_in self w = (Returns tt, w') /\
     heap w' !! self = Some (OBook b') /\
     _copies b' = _copies b + 1 /\
     _maxcopies b' = _maxcopies b /\
     stdout w' = (stdout w ++ [copies_report b'])%list).
Proof.
  intros H. split; intros Hc.
  - apply check_in_full; [lia|exact H].
  - eexists _, _. split; [apply (check_in_below w self b); [exact Hc|exact H]|].
    cbn. rewrite lookup_insert_eq. repeat split; cbn; lia.
Qed.

Lemma check_in_spec_witness :
  check_in 1%positive (one_book (dune 3 3)) =
  (Returns tt,
   mkWorld (heap (one_book (dune 3 3))) [AllCopiesPresent "Dune"]) /\
  exists w' b',
    check_in 1%positive (one_book (dune 2 3)) = (Returns tt, w') /\
    heap w' !! 1%positive = Some (OBook b') /\
    _copies b' = 3 /\
    _maxcopies b' = 3 /\
    stdout w' = [copies_report b'].
Proof.
  split.
  - apply (check_in_spec (one_book (dune 3 3)) 1%positive (dune 3 3)); reflexivity.
  - apply (check_in_spec (one_book (dune 2 3)) 1%positive (dune 2 3));
      [reflexivity | cbn; lia].
Defined.

(** C6.  On a Book with [0 < available_copies <= total_copies], a
    [check_out] followed by a [check_in] both succeed and give back the
    available count of before the pair; the total is the same after each
    of the two calls. *)
Theorem check_out_check_in_roundtrip (w : world) (self : loc) (b : Book) :
  heap w !! self = Some (OBook b) ->
  0 < _copies b <= _maxcopies b ->
  exists w1 b1 w2 b2,
    check_out self w = (Returns tt, w1) /\
    heap w1 !! self = Some (OBook b1) /\
    _copies b1 = _copies b - 1 /\
    _maxcopies b1 = _maxcopies b /\
    check_in self w1 = (Returns tt, w2) /\
    heap w2 !! self = Some (OBook b2) /\
    _copies b2 = _copies b /\
    _maxcopies b2 = _maxcopies b /\
    b2 = b.
Proof.
  intros H Hc.
  set (b1 := with_copies b (-1) 0).
  pose proof (check_out_nonzero w self b ltac:(lia) H) as Hout.
  fold b1 in Hout.
  match type of Hout with _ = (_, ?w') => set (w1 := w') in * end.
  assert (H1 : heap w1 !! self = Some (OBook b1)) by apply lookup_insert_eq.
  assert (Hlt : _copies b1 < _maxcopies b1) by (cbn; lia).
  pose proof (check_in_below w1 self b1 Hlt H1) as Hin.
  assert (Hb : with_copies b1 1 0 = b).
  { destruct b as [t a p d c m]. unfold b1, with_copies. cbn. f_equal; lia. }
  rewrite Hb in Hin.
  eexists w1, b1, _, b.
  split; [exact Hout|]. split; [exact H1|].
  split; [cbn; lia|]. split; [cbn; lia|].
  split; [exact Hin|]. split; [apply lookup_insert_eq|].
  repeat split.
Qed.

Lemma check_out_check_in_roundtrip_witness :
  exists w1 b1 w2 b2,
    check_out 1%positive (one_book (dune 2 3)) = (Returns tt, w1) /\
    heap w1 !! 1%positive = Some (OBook b1) /\
    _copies b1 = 1 /\
    _maxcopies b1 = 3 /\
    check_in 1%positive w1 = (Returns tt, w2) /\
    heap w2 !! 1%positive = Some (OBook b2) /\
    _copies b2 = 2 /\
    _maxcopies b2 = 3 /\
    b2 = dune 2 3.
Proof.
  apply (check_out_check_in_roundtrip (one_book (dune 2 3)) 1%positive
           (dune 2 3)); [reflexivity | cbn; lia].
Defined.

(** C9.  The constructor takes [copies = 0] as it is: the new Book has no
    available and no total copy, and a [check_out] on it changes nothing
    and prints the [OutOfStock] notice. *)
Theorem Book_init_zero_copies
    (w : world) (title author : string) (page_count : Z) (desc : string) :
  exists self w1,
    Book_init title author page_count desc 0 w = (Returns self, w1) /\
    heap w1 !! self = Some (OBook (mkBook title author page_count desc 0 0)) /\
    check_out self w1 =
    (Returns tt, mkWorld (heap w1) (stdout w1 ++ [OutOfStock title])).
Proof.
  eexists _, _. split; [reflexivity|].
  assert (Hl : forall o : object,
             <[fresh (dom (heap w)) := o]> (heap w) !! fresh (dom (heap w))
             = Some o) by (intros o; apply lookup_insert_eq).
  split; [apply Hl|].
  apply (check_out_zero _ _ (mkBook title author page_count desc 0 0));
    [reflexivity | apply Hl].
Qed.

(** ** Reading and allocating leave the objects already there alone *)

Lemma extends_refl w : extends w w.
Proof. split; auto. Qed.

Lemma new_extends o w l w1 :
  new o w = (Returns l, w1) ->
  extends w w1 /\ heap w !! l = None /\ heap w1 !! l = Some o.
Proof.
  unfold new, extends. intros [= <- <-]. cbn.
  pose proof (fresh_loc_unused (heap w)) as Hf.
  split; [split; [reflexivity|]|split; [exact Hf|apply lookup_insert_eq]].
  intros l o' Hl. rewrite lookup_insert_ne; [exact Hl|congruence].
Qed.

Lemma py_str_pure v w r w1 : py_str v w = (r, w1) -> w1 = w.
Proof.
  destruct v; cbn; unfold Book_str, copy_str; unfold_monad;
    intros H; repeat case_match; simplify_eq; reflexivity.
Qed.

Lemma isinstance_Book_pure v w r w1 :
  isinstance_Book v w = (r, w1) -> w1 = w.
Proof.
  destruct v; cbn; unfold_monad;
    intros H; repeat case_match; simplify_eq; reflexivity.
Qed.

Lemma isinstance_Book_Some v w l w1 :
  isinstance_Book v w = (Returns (Some l), w1) ->
  v = VRef l /\ exists b, heap w !! l = Some (OBook b).
Proof.
  destruct v; cbn; unfold_monad;
    intros H; repeat case_match; simplify_eq; eauto.
Qed.

Lemma isinstance_Book_instance w l b :
  heap w !! l = Some (OBook b) ->
  isinstance_Book (VRef l) w = (Returns (Some l), w).
Proof. intros H. cbn. unfold_monad. now rewrite H. Qed.

(** ** class Shelf *)

(** What [key_and_book] returns: a Book instance under its own title and
    an untouched world, or a new Book, with the defaults, under the
    title-cased string of the item. *)
Lemma key_and_book_returns item w key l w1 :
  key_and_book item w = (Returns (key, l), w1) ->
  (exists b, item = VRef l /\ heap w !! l = Some (OBook b) /\
             key = title b /\ w1 = w) \/
  (exists label,
     isinstance_Book item w = (Returns None, w) /\
     py_str item w = (Returns label, w) /\
     key = str_title label /\
     Book_init1 key w = (Returns l, w1)).
Proof.
  unfold key_and_book. intros H.
  destruct (isinstance_Book item w) as [[[li|]|e] wi] eqn:Hi;
    pose proof (isinstance_Book_pure _ _ _ _ Hi) as ->;
    rewrite ?(bind_returns _ _ _ _ _ Hi), ?(bind_raises _ _ _ _ _ Hi) in H;
    [| |discriminate].
  - destruct (isinstance_Book_Some _ _ _ _ Hi) as (-> & b & Hb).
    rewrite (bind_returns _ _ _ _ _ (get_Book_returns _ _ _ Hb)) in H.
    injection H as <- <- <-. left. eauto.
  - destruct (py_str item w) as [[label|e] ws] eqn:Hs;
      pose proof (py_str_pure _ _ _ _ Hs) as ->;
      rewrite ?(bind_returns _ _ _ _ _ Hs), ?(bind_raises _ _ _ _ _ Hs) in H;
      [|discriminate].
    right. exists label.
    unfold bind, ret in H.
    destruct (Book_init1 (str_title label) w) as [[l'|e] w'] eqn:Hn;
      [|discriminate].
    injection H as <- <- <-. auto.
Qed.

Lemma key_and_book_extends item w key l w1 :
  key_and_book item w = (Returns (key, l), w1) -> extends w w1.
Proof.
  intros H. destruct (key_and_book_returns _ _ _ _ _ H)
    as [(b & _ & _ & _ & ->)|(label & _ & _ & _ & Hn)].
  - apply extends_refl.
  - now apply new_extends in Hn.
Qed.

(** The loop body on a key that is on the shelf: one more copy of the
    Book found there, whatever was to be added. *)
Lemma add_books_body_existing w self s item key to_add w1 existing b :
  heap w !! self = Some (OShelf s) ->
  key_and_book item w = (Returns (key, to_add), w1) ->
  _books s !! key = Some existing ->
  heap w !! existing = Some (OBook b) ->
  add_books_body self item w =
  (Returns tt,
   mkWorld (<[existing := OBook (with_copies b 1 1)]> (heap w1)) (stdout w)).
Proof.
  intros Hs Hk He Hb.
  destruct (key_and_book_extends _ _ _ _ _ Hk) as [Hout Hext].
  unfold add_books_body.
  rewrite (bind_returns _ _ _ _ _ Hk).
  rewrite (bind_returns _ _ _ _ _ (get_Shelf_returns _ _ _ (Hext _ _ Hs))).
  rewrite He, (add_copy_returns _ _ _ (Hext _ _ Hb)). now rewrite Hout.
Qed.

(** C4.  When the key of an added item is already on the shelf,
    [add_books] gives the Book found under that key one more available
    and one more total copy, and the shelf keeps its entries: the same
    mapping, hence the same number of entries. *)
Theorem add_books_existing_title
    (w : world) (self : loc) (s : Shelf) (item : value)
    (key : string) (to_add : loc) (w1 : world) (existing : loc) (b : Book) :
  heap w !! self = Some (OShelf s) ->
  key_and_book item w = (Returns (key, to_add), w1) ->
  _books s !! key = Some existing ->
  heap w !! existing = Some (OBook b) ->
  exists w' b' s',
    add_books self [item] w = (Returns tt, w') /\
    heap w' !! existing = Some (OBook b') /\
    _copies b' = _copies b + 1 /\
    _maxcopies b' = _maxcopies b + 1 /\
    heap w' !! self = Some (OShelf s') /\
    _books s' = _books s /\
    size (_books s') = size (_books s).
Proof.
  intros Hs Hk He Hb.
  destruct (key_and_book_extends _ _ _ _ _ Hk) as [_ Hext].
  eexists _, (with_copies b 1 1), s.
  split.
  { unfold add_books. rewrite for_each_single.
    eapply add_books_body_existing; eassumption. }
  cbn. split; [apply lookup_insert_eq|].
  split; [reflexivity|]. split; [reflexivity|].
  split; [|split; reflexivity].
  rewrite lookup_insert_ne; [now apply Hext|congruence].
Qed.

Lemma add_books_existing_title_witness :
  exists w' b' s',
    add_books 1%positive [VStr "the scar"] fantasy_world = (Returns tt, w') /\
    heap w' !! 2%positive = Some (OBook b') /\
    _copies b' = 1 + 1 /\
    _maxcopies b' = 1 + 1 /\
    heap w' !! 1%positive = Some (OShelf s') /\
    _books s' = _books fantasy /\
    size (_books s') = size (_books fantasy).
Proof.
  apply (add_books_existing_title fantasy_world 1%positive fantasy
           (VStr "the scar") "The Scar" 4%positive
           (mkWorld (<[4%positive := OBook (mkBook "The Scar" "" 0 "" 1 1)]>
                       (heap fantasy_world)) [])
           2%positive (the_scar 1));
    reflexivity.
Defined.

(** C10.  When [add_books] is given a Book instance whose title is a key
    of the shelf, the Book stored under that key keeps its title, author,
    page count and description and gains exactly one available and one
    total copy, whatever the counts of the instance passed in; the shelf
    still maps the key to the stored Book, the instance passed in is not
    modified (when it is another object than the stored one), and nothing
    else in the store changes. *)
Theorem add_books_existing_instance
    (w : world) (self : loc) (s : Shelf) (incoming : loc) (bi : Book)
    (stored : loc) (b : Book) :
  heap w !! self = Some (OShelf s) ->
  heap w !! incoming = Some (OBook bi) ->
  _books s !! title bi = Some stored ->
  heap w !! stored = Some (OBook b) ->
  exists w' b',
    add_books self [VRef incoming] w = (Returns tt, w') /\
    heap w' !! stored = Some (OBook b') /\
    title b' = title b /\
    author b' = author b /\
    page_count b' = page_count b /\
    desc b' = desc b /\
    _copies b' = _copies b + 1 /\
    _maxcopies b' = _maxcopies b + 1 /\
    heap w' !! self = Some (OShelf s) /\
    (incoming <> stored -> heap w' !! incoming = Some (OBook bi)) /\
    w' = mkWorld (<[stored := OBook b']> (heap w)) (stdout w).
Proof.
  intros Hs Hi He Hb.
  assert (Hk : key_and_book (VRef incoming) w
               = (Returns (title bi, incoming), w)).
  { unfold key_and_book.
    rewrite (bind_returns _ _ _ _ _ (isinstance_Book_instance _ _ _ Hi)).
    now rewrite (bind_returns _ _ _ _ _ (get_Book_returns _ _ _ Hi)). }
  eexists _, (with_copies b 1 1).
  split.
  { unfold add_books. rewrite for_each_single.
    eapply add_books_body_existing; eassumption. }
  cbn. split; [apply lookup_insert_eq|].
  do 6 (split; [reflexivity|]).
  split; [rewrite lookup_insert_ne; [exact Hs|congruence]|].
  split; [|reflexivity].
  intros Hne. rewrite lookup_insert_ne; [exact Hi|congruence].
Qed.

Lemma add_books_existing_instance_witness :
  exists w' b',
    add_books 1%positive [VRef 3%positive] fantasy_world = (Returns tt, w') /\
    heap w' !! 2%positive = Some (OBook b') /\
    title b' = "The Scar" /\
    author b' = "China Mieville" /\
    page_count b' = 608 /\
    desc b' = "" /\
    _copies b' = 1 + 1 /\
    _maxcopies b' = 1 + 1 /\
    heap w' !! 1%positive = Some (OShelf fantasy) /\
    (3%positive <> 2%positive ->
     heap w' !! 3%positive = Some (OBook (mkBook "The Scar" "" 0 "" 5 5))) /\
    w' = mkWorld (<[2%positive := OBook b']> (heap fantasy_world))
                 (stdout fantasy_world).
Proof.
  apply (add_books_existing_instance fantasy_world 1%positive fantasy
           3%positive (mkBook "The Scar" "" 0 "" 5 5) 2%positive (the_scar 1));
    reflexivity.
Defined.

(** C8.  When [add_books] is given an item that is not a Book instance
    and the title-cased string of the item is not a key of the shelf, a
    new Book is created and entered under that key; its title is the key
    and it has one available and one total copy. *)
Theorem add_books_new_label
    (w : world) (self : loc) (s : Shelf) (item : value) (label : string) :
  heap w !! self = Some (OShelf s) ->
  isinstance_Book item w = (Returns None, w) ->
  py_str item w = (Returns label, w) ->
  _books s !! str_title label = None ->
  exists w' new_book b s',
    add_books self [item] w = (Returns tt, w') /\
    heap w !! new_book = None /\
    heap w' !! new_book = Some (OBook b) /\
    title b = str_title label /\
    _copies b = 1 /\
    _maxcopies b = 1 /\
    heap w' !! self = Some (OShelf s') /\
    _books s' = <[str_title label := new_book]> (_books s) /\
    _books s' !! str_title label = Some new_book.
Proof.
  intros Hs Hi Hl Hnone.
  set (key := str_title label) in *.
  set (new_book := fresh (dom (heap w))).
  set (b := mkBook key "" 0 "" 1 1).
  assert (Hfresh : heap w !! new_book = None) by apply fresh_loc_unused.
  assert (Hne : new_book <> self) by congruence.
  exists (mkWorld (<[self := OShelf (set_books s (<[key := new_book]> (_books s)))]>
                     (<[new_book := OBook b]> (heap w))) (stdout w)),
         new_book, b, (set_books s (<[key := new_book]> (_books s))).
  assert (Hk : key_and_book item w
               = (Returns (key, new_book),
                  mkWorld (<[new_book := OBook b]> (heap w)) (stdout w))).
  { unfold key_and_book.
    rewrite (bind_returns _ _ _ _ _ Hi), (bind_returns _ _ _ _ _ Hl).
    reflexivity. }
  split.
  { unfold add_books. rewrite for_each_single.
    unfold add_books_body.
    rewrite (bind_returns _ _ _ _ _ Hk).
    erewrite (bind_returns (get_Shelf self)).
    2:{ apply get_Shelf_returns. cbn.
        rewrite lookup_insert_ne; [exact Hs|exact Hne]. }
    rewrite Hnone. reflexivity. }
  cbn. split; [exact Hfresh|].
  split; [rewrite lookup_insert_ne; [apply lookup_insert_eq|congruence]|].
  do 3 (split; [reflexivity|]).
  split; [apply lookup_insert_eq|].
  split; [reflexivity|apply lookup_insert_eq].
Qed.

Lemma add_books_new_label_witness :
  exists w' new_book b s',
    add_books 1%positive [VStr "perdido street station"] fantasy_world
    = (Returns tt, w') /\
    heap fantasy_world !! new_book = None /\
    heap w' !! new_book = Some (OBook b) /\
    title b = str_title "perdido street station" /\
    _copies b = 1 /\
    _maxcopies b = 1 /\
    heap w' !! 1%positive = Some (OShelf s') /\
    _books s' =
      <[str_title "perdido street station" := new_book]> (_books fantasy) /\
    _books s' !! str_title "perdido street station" = Some new_book.
Proof.
  apply (add_books_new_label fantasy_world 1%positive fantasy
           (VStr "perdido street station") "perdido street station");
    reflexivity.
Defined.

(** ** class Library *)

Lemma shelf_by_name_pure v w r w1 : shelf_by_name v w = (r, w1) -> w1 = w.
Proof.
  destruct v; cbn; unfold_monad;
    intros H; repeat case_match; simplify_eq; reflexivity.
Qed.

Lemma key_and_shelf_extends item w key l w1 :
  key_and_shelf item w = (Returns (key, l), w1) -> extends w w1.
Proof.
  unfold key_and_shelf, try_except_AttributeError. intros H.
  destruct (shelf_by_name item w) as [[kl|e] wn] eqn:Hn;
    pose proof (shelf_by_name_pure _ _ _ _ Hn) as ->.
  - injection H as _ <-. apply extends_refl.
  - destruct e; try discriminate.
    destruct (py_str item w) as [[label|e] ws] eqn:Hs;
      pose proof (py_str_pure _ _ _ _ Hs) as ->;
      rewrite ?(bind_returns _ _ _ _ _ Hs), ?(bind_raises _ _ _ _ _ Hs) in H;
      [|discriminate].
    unfold bind, ret in H.
    destruct (Shelf_init label w) as [[l'|e] w'] eqn:Hi; [|discriminate].
    injection H as _ _ <-. now apply new_extends in Hi.
Qed.

(** C5.  When the key of an added item is already a name in the library,
    [add_shelves] prints the [DuplicateShelf] notice and leaves the
    library as it was (the same mapping, so the same number of shelves
    and the same shelf under that name) and every object of the store,
    the existing shelf and its Books among them, unchanged. *)
Theorem add_shelves_existing_name
    (w : world) (self : loc) (x : Library) (item : value)
    (key : string) (to_add : loc) (w1 : world) (existing : loc) :
  heap w !! self = Some (OLibrary x) ->
  key_and_shelf item w = (Returns (key, to_add), w1) ->
  _shelves x !! key = Some existing ->
  exists w' x',
    add_shelves self [item] w = (Returns tt, w') /\
    stdout w' = (stdout w ++ [DuplicateShelf key])%list /\
    heap w' !! self = Some (OLibrary x') /\
    x' = x /\
    size (_shelves x') = size (_shelves x) /\
    _shelves x' !! key = Some existing /\
    (forall l o, heap w !! l = Some o -> heap w' !! l = Some o).
Proof.
  intros Hx Hk He.
  destruct (key_and_shelf_extends _ _ _ _ _ Hk) as [Hout Hext].
  exists (mkWorld (heap w1) (stdout w ++ [DuplicateShelf key])), x.
  split.
  { unfold add_shelves. rewrite for_each_single.
    unfold add_shelves_body.
    rewrite (bind_returns _ _ _ _ _ Hk).
    rewrite (bind_returns _ _ _ _ _ (get_Library_returns _ _ _ (Hext _ _ Hx))).
    rewrite He. unfold print. now rewrite Hout. }
  cbn. split; [reflexivity|]. split; [now apply Hext|].
  do 2 (split; [reflexivity|]). split; [exact He|exact Hext].
Qed.

Lemma add_shelves_existing_name_witness :
  exists w' x',
    add_shelves 4%positive [VStr "Fantasy"] bellevue_world
    = (Returns tt, w') /\
    stdout w' = (stdout bellevue_world ++ [DuplicateShelf "Fantasy"])%list /\
    heap w' !! 4%positive = Some (OLibrary x') /\
    x' = bellevue /\
    size (_shelves x') = size (_shelves bellevue) /\
    _shelves x' !! "Fantasy" = Some 1%positive /\
    (forall l o,
       heap bellevue_world !! l = Some o -> heap w' !! l = Some o).
Proof.
  apply (add_shelves_existing_name bellevue_world 4%positive bellevue
           (VStr "Fantasy") "Fantasy" 5%positive
           (mkWorld (<[5%positive := OShelf (mkShelf "Fantasy" ∅)]>
                       (heap bellevue_world)) [])
           1%positive);
    reflexivity.
Defined.

(** ** [Book.enshelf] and [Book.unshelf] *)

(** [enshelf] on a Shelf never reaches [add_books]: the attribute it asks
    for does not exist. *)
Lemma enshelf_raises w self shelf s :
  heap w !! shelf = Some (OShelf s) ->
  enshelf self (VRef shelf) w = (Raises (AttributeError "add_book"), w).
Proof.
  intros H. unfold enshelf, call_method. unfold_monad. now rewrite H.
Qed.

(** [remove_book] with a Book instance as the key finds nothing and
    leaves the store as it is. *)
Lemma remove_book_instance_key w shelf s l r w1 :
  heap w !! shelf = Some (OShelf s) ->
  remove_book shelf (VRef l) w = (r, w1) ->
  heap w1 = heap w.
Proof.
  intros H. unfold remove_book.
  rewrite (bind_returns _ _ _ _ _ (get_Shelf_returns _ _ _ H)).
  cbn [dict_get]. unfold not_found_in_shelf.
  destruct (py_str (VRef l) w) as [[t|e] ws] eqn:Hs;
    pose proof (py_str_pure _ _ _ _ Hs) as ->;
    rewrite ?(bind_returns _ _ _ _ _ Hs), ?(bind_raises _ _ _ _ _ Hs);
    unfold print; intros [= _ <-]; reflexivity.
Qed.

Lemma Shelf_method_remove_book :
  Shelf_method "remove_book"
  = Some (fun self v => remove_book self v ;;; ret VNone).
Proof. reflexivity. Qed.

(** [unshelf] on a Shelf passes the Book, not its title: nothing is found
    under that key, and the shelf and every other object stay as they
    are. *)
Lemma unshelf_removes_nothing w self shelf s r w1 :
  heap w !! shelf = Some (OShelf s) ->
  unshelf self (VRef shelf) w = (r, w1) ->
  heap w1 = heap w.
Proof.
  intros H.
  assert (Hd : deref shelf w = (Returns (OShelf s), w))
    by (unfold deref; now rewrite H).
  assert (Hc : call_method (VRef shelf) "remove_book" (VRef self) w
               = (remove_book shelf (VRef self) ;;; ret VNone) w).
  { unfold call_method. rewrite (bind_returns _ _ _ _ _ Hd).
    now rewrite Shelf_method_remove_book. }
  unfold unshelf. unfold bind at 1. rewrite Hc.
  destruct (remove_book shelf (VRef self) w) as [[[]|e] wr] eqn:Hr;
    pose proof (remove_book_instance_key _ _ _ _ _ _ H Hr) as Hh;
    unfold bind, ret; rewrite Hr; intros [= _ <-]; exact Hh.
Qed.

(** C7.  [enshelf] and [unshelf] do not do what the shelf operations do
    with the title of the Book.  With "Dune" off the shelf, [enshelf]
    raises [AttributeError] and changes nothing, while [add_books] puts
    the Book on the shelf; with "Dune" on the shelf, [unshelf] prints a
    not-found line and leaves the Book on the shelf, while [remove_book]
    with the title takes it off. *)
Theorem enshelf_unshelf_do_not_delegate :
  enshelf 2%positive (VRef 1%positive) dune_off_shelf
  = (Raises (AttributeError "add_book"), dune_off_shelf) /\
  add_books 1%positive [VRef 2%positive] dune_off_shelf
  = (Returns tt, dune_on_shelf) /\
  unshelf 2%positive (VRef 1%positive) dune_on_shelf
  = (Returns tt,
     mkWorld (heap dune_on_shelf)
       [("Title: Dune" ++ newline ++ "Author: Frank Herbert" ++ newline ++
         "Pages: 412" ++ newline ++ "Copies: 1 / 1" ++ newline ++
         "Description: ") ++ " not found in Science Fiction!"]) /\
  remove_book 1%positive (VStr "Dune") dune_on_shelf
  = (Returns tt, dune_off_shelf).
Proof. repeat split; vm_compute; reflexivity. Qed.

(** * Further properties of the program *)

(** ** Copy counts over sequences of operations *)

Lemma added_copies_nonneg ops : 0 <= added_copies ops.
Proof. induction ops as [|[] ops IH]; cbn [added_copies]; lia. Qed.

(** One operation on a Book: the call returns, only the counters of that
    Book can change, and the total changes only for [add_copy]. *)
Lemma run_op_effect op w self b :
  heap w !! self = Some (OBook b) ->
  exists w' b',
    run_op self op w = (Returns tt, w') /\
    heap w' !! self = Some (OBook b') /\
    (title b' = title b /\ author b' = author b /\
     page_count b' = page_count b /\ desc b' = desc b) /\
    _maxcopies b' = _maxcopies b + added_copies [op] /\
    (forall l, l <> self -> heap w' !! l = heap w !! l).
Proof.
  intros H. destruct op; cbn [run_op added_copies].
  - eexists _, _. split; [apply (add_copy_returns w self b H)|].
    cbn. rewrite lookup_insert_eq. split; [reflexivity|].
    split; [now repeat split|]. split; [cbn; lia|].
    intros l Hl. now rewrite lookup_insert_ne.
  - destruct (Z.eq_dec (_copies b) 0) as [Hz|Hnz].
    + eexists _, b. split; [apply (check_out_zero w self b Hz H)|].
      cbn. split; [exact H|]. split; [now repeat split|].
      split; [lia|reflexivity].
    + eexists _, _. split; [apply (check_out_nonzero w self b Hnz H)|].
      cbn. rewrite lookup_insert_eq. split; [reflexivity|].
      split; [now repeat split|]. split; [cbn; lia|].
      intros l Hl. now rewrite lookup_insert_ne.
  - destruct (Z_lt_le_dec (_copies b) (_maxcopies b)) as [Hlt|Hge].
    + eexists _, _. split; [apply (check_in_below w self b Hlt H)|].
      cbn. rewrite lookup_insert_eq. split; [reflexivity|].
      split; [now repeat split|]. split; [cbn; lia|].
      intros l Hl. now rewrite lookup_insert_ne.
    + eexists _, b. split; [apply (check_in_full w self b Hge H)|].
      cbn. split; [exact H|]. split; [now repeat split|].
      split; [lia|reflexivity].
Qed.

(** X1.  Whatever sequence of [add_copy], [check_out] and [check_in] is
    run on a Book, in whatever state: every call returns, the title,
    author, page count and description stay, the total grows by exactly
    the number of [add_copy] calls (so it never shrinks), and no other
    object of the store is touched. *)
Theorem run_ops_total_copies (ops : list book_op) :
  forall (w : world) (self : loc) (b : Book),
    heap w !! self = Some (OBook b) ->
    exists w' b',
      run_ops self ops w = (Returns tt, w') /\
      heap w' !! self = Some (OBook b') /\
      (title b' = title b /\ author b' = author b /\
       page_count b' = page_count b /\ desc b' = desc b) /\
      _maxcopies b' = _maxcopies b + added_copies ops /\
      _maxcopies b <= _maxcopies b' /\
      (forall l, l <> self -> heap w' !! l = heap w !! l).
Proof.
  induction ops as [|op ops IH]; intros w self b H.
  - exists w, b. cbn. repeat split; try reflexivity; try exact H; lia.
  - destruct (run_op_effect op w self b H)
      as (w1 & b1 & Hrun & H1 & (Ht & Ha & Hp & Hd) & Hm & Hf).
    destruct (IH w1 self b1 H1)
      as (w2 & b2 & Hrest & H2 & (Ht2 & Ha2 & Hp2 & Hd2) & Hm2 & _ & Hf2).
    exists w2, b2.
    split.
    { unfold run_ops. cbn [for_each].
      now rewrite (bind_returns _ _ _ _ _ Hrun). }
    split; [exact H2|].
    split; [repeat split; congruence|].
    assert (Hsum : added_copies (op :: ops)
                   = added_copies [op] + added_copies ops)
      by (destruct op; cbn [added_copies]; lia).
    pose proof (added_copies_nonneg (op :: ops)).
    split; [lia|]. split; [lia|].
    intros l Hl. rewrite (Hf2 l Hl). apply (Hf l Hl).
Qed.

Lemma run_ops_total_copies_witness :
  exists w' b',
    run_ops 2%positive [OpCheckOut; OpAddCopy; OpCheckIn; OpAddCopy]
            fantasy_world = (Returns tt, w') /\
    heap w' !! 2%positive = Some (OBook b') /\
    (title b' = title (the_scar 1) /\ author b' = author (the_scar 1) /\
     page_count b' = page_count (the_scar 1) /\
     desc b' = desc (the_scar 1)) /\
    _maxcopies b' = _maxcopies (the_scar 1)
                    + added_copies [OpCheckOut; OpAddCopy; OpCheckIn; OpAddCopy] /\
    _maxcopies (the_scar 1) <= _maxcopies b' /\
    (forall l, l <> 2%positive ->
               heap w' !! l = heap fantasy_world !! l).
Proof.
  apply (run_ops_total_copies _ fantasy_world 2%positive (the_scar 1)).
  reflexivity.
Defined.




(** X3.  The other round trip: on a Book with
    [0 <= available_copies < total_copies], a [check_in] followed by a
    [check_out] both take place and give back the Book as it was. *)
Theorem check_in_check_out_roundtrip (w : world) (self : loc) (b : Book) :
  heap w !! self = Some (OBook b) ->
  0 <= _copies b < _maxcopies b ->
  exists w1 b1 w2,
    check_in self w = (Returns tt, w1) /\
    heap w1 !! self = Some (OBook b1) /\
    _copies b1 = _copies b + 1 /\
    _maxcopies b1 = _maxcopies b /\
    check_out self w1 = (Returns tt, w2) /\
    heap w2 !! self = Some (OBook b) /\
    stdout w2 = (stdout w ++ [copies_report b1; copies_report b])%list.
Proof.
  intros H Hc.
  set (b1 := with_copies b 1 0).
  pose proof (check_in_below w self b ltac:(lia) H) as Hin.
  fold b1 in Hin.
  match type of Hin with _ = (_, ?w') => set (w1 := w') in * end.
  assert (H1 : heap w1 !! self = Some (OBook b1)) by apply lookup_insert_eq.
  assert (Hnz : _copies b1 <> 0) by (cbn; lia).
  pose proof (check_out_nonzero w1 self b1 Hnz H1) as Hout.
  assert (Hb : with_copies b1 (-1) 0 = b).
  { destruct b as [t a p d c m]. unfold b1, with_copies. cbn. f_equal; lia. }
  rewrite Hb in Hout.
  eexists w1, b1, _.
  split; [exact Hin|]. split; [exact H1|].
  split; [cbn; lia|]. split; [cbn; lia|].
  split; [exact Hout|]. split; [apply lookup_insert_eq|].
  cbn. now rewrite <- app_assoc.
Qed.

Lemma check_in_check_out_roundtrip_witness :
  exists w1 b1 w2,
    check_in 1%positive (one_book (dune 0 3)) = (Returns tt, w1) /\
    heap w1 !! 1%positive = Some (OBook b1) /\
    _copies b1 = _copies (dune 0 3) + 1 /\
    _maxcopies b1 = _maxcopies (dune 0 3) /\
    check_out 1%positive w1 = (Returns tt, w2) /\
    heap w2 !! 1%positive = Some (OBook (dune 0 3)) /\
    stdout w2 = (stdout (one_book (dune 0 3))
                 ++ [copies_report b1; copies_report (dune 0 3)])%list.
Proof.
  apply (check_in_check_out_roundtrip (one_book (dune 0 3)) 1%positive
           (dune 0 3)); [reflexivity | cbn; lia].
Defined.

(** X4.  The constructor does not look at the sign of [copies], and
    [check_out] only asks whether the count is nonzero: on a Book created
    with a negative number of copies a check-out takes place, prints the
    copies report and leaves the count one lower, so the count stays
    below zero. *)
Theorem Book_init_negative_copies
    (w : world) (title author : string) (page_count : Z) (desc : string)
    (copies : Z) :
  copies < 0 ->
  exists self w1 w2 b,
    Book_init title author page_count desc copies w = (Returns self, w1) /\
    check_out self w1 = (Returns tt, w2) /\
    heap w2 !! self = Some (OBook b) /\
    _copies b = copies - 1 /\
    _maxcopies b = copies /\
    ~ copies_invariant b /\
    stdout w2 = (stdout w ++ [copies_report b])%list.
Proof.
  intros Hc.
  set (b0 := mkBook title author page_count desc copies copies).
  set (self := fresh (dom (heap w))).
  set (w1 := mkWorld (<[self := OBook b0]> (heap w)) (stdout w)).
  assert (H1 : heap w1 !! self = Some (OBook b0)) by apply lookup_insert_eq.
  assert (Hnz : _copies b0 <> 0) by (cbn; lia).
  eexists self, w1, _, (with_copies b0 (-1) 0).
  split; [reflexivity|].
  split; [apply (check_out_nonzero w1 self b0 Hnz H1)|].
  cbn. split; [apply lookup_insert_eq|].
  split; [lia|]. split; [lia|].
  split; [unfold copies_invariant; cbn; lia|reflexivity].
Qed.

Lemma Book_init_negative_copies_witness :
  exists self w1 w2 b,
    Book_init "Dune" "" 0 "" (-2) w0 = (Returns self, w1) /\
    check_out self w1 = (Returns tt, w2) /\
    heap w2 !! self = Some (OBook b) /\
    _copies b = -2 - 1 /\
    _maxcopies b = -2 /\
    ~ copies_invariant b /\
    stdout w2 = (stdout w0 ++ [copies_report b])%list.
Proof. apply (Book_init_negative_copies w0 "Dune" "" 0 "" (-2)). lia. Defined.

(** ** The report line *)







(** ** Lookups and removals on a shelf *)

Lemma not_found_in_shelf_str w (title : string) s :
  not_found_in_shelf (VStr title) s w
  = (Returns tt,
     mkWorld (heap w) (stdout w ++ [NotFound title (shelf_name s)])).
Proof. reflexivity. Qed.

Lemma get_book_found w self s (title : string) l :
  heap w !! self = Some (OShelf s) ->
  _books s !! title = Some l ->
  get_book self (VStr title) w = (Returns (VRef l), w).
Proof.
  intros H Hl. unfold get_book.
  rewrite (bind_returns _ _ _ _ _ (get_Shelf_returns _ _ _ H)).
  cbn [dict_get]. now rewrite Hl.
Qed.

(** X6.  [get_book] looks the title up as it is given (no title-casing):
    when it is a key of the shelf the Book filed there is returned and
    nothing is printed; when it is not, [None] is returned and the
    not-found line is printed.  The store is unchanged either way. *)
Theorem get_book_spec (w : world) (self : loc) (s : Shelf) (title : string) :
  heap w !! self = Some (OShelf s) ->
  (forall l, _books s !! title = Some l ->
             get_book self (VStr title) w = (Returns (VRef l), w)) /\
  (_books s !! title = None ->
   get_book self (VStr title) w =
   (Returns VNone,
    mkWorld (heap w) (stdout w ++ [NotFound title (shelf_name s)]))).
Proof.
  intros H. split; [intros l Hl|intros Hl]; unfold get_book;
    rewrite (bind_returns _ _ _ _ _ (get_Shelf_returns _ _ _ H));
    cbn [dict_get]; rewrite Hl; [reflexivity|].
  now rewrite (bind_returns _ _ _ _ _ (not_found_in_shelf_str w title s)).
Qed.

Lemma get_book_spec_witness :
  get_book 1%positive (VStr "The Scar") fantasy_world
  = (Returns (VRef 2%positive), fantasy_world) /\
  get_book 1%positive (VStr "the scar") fantasy_world =
  (Returns VNone,
   mkWorld (heap fantasy_world)
           (stdout fantasy_world
            ++ [NotFound "the scar" (shelf_name fantasy)])).
Proof.
  split.
  - apply (get_book_spec fantasy_world 1%positive fantasy "The Scar");
      reflexivity.
  - apply (get_book_spec fantasy_world 1%positive fantasy "the scar");
      reflexivity.
Defined.

(** X7.  [remove_book] with a title that is a key of the shelf takes
    exactly that entry off: the shelf has one entry less, the other
    entries stay, nothing is printed, and no other object changes (the
    Book itself stays in the store).  With a title that is not a key it
    prints the not-found line and changes nothing. *)
Theorem remove_book_spec (w : world) (self : loc) (s : Shelf) (title : string) :
  heap w !! self = Some (OShelf s) ->
  (is_Some (_books s !! title) ->
   exists w' s',
     remove_book self (VStr title) w = (Returns tt, w') /\
     heap w' !! self = Some (OShelf s') /\
     shelf_name s' = shelf_name s /\
     _books s' !! title = None /\
     (forall k, k <> title -> _books s' !! k = _books s !! k) /\
     size (_books s') = pred (size (_books s)) /\
     (forall l, l <> self -> heap w' !! l = heap w !! l) /\
     stdout w' = stdout w) /\
  (_books s !! title = None ->
   remove_book self (VStr title) w =
   (Returns tt,
    mkWorld (heap w) (stdout w ++ [NotFound title (shelf_name s)]))).
Proof.
  intros H. split.
  - intros [l Hl].
    exists (mkWorld (<[self := OShelf (set_books s (delete title (_books s)))]>
                       (heap w)) (stdout w)),
           (set_books s (delete title (_books s))).
    split.
    { unfold remove_book.
      rewrite (bind_returns _ _ _ _ _ (get_Shelf_returns _ _ _ H)).
      cbn [dict_get dict_del]. now rewrite Hl. }
    cbn. split; [apply lookup_insert_eq|]. split; [reflexivity|].
    split; [apply lookup_delete_eq|].
    split; [intros k Hk; now apply lookup_delete_ne|].
    split; [apply map_size_delete_Some; eauto|].
    split; [|reflexivity].
    intros l' Hl'. now rewrite lookup_insert_ne.
  - intros Hl. unfold remove_book.
    rewrite (bind_returns _ _ _ _ _ (get_Shelf_returns _ _ _ H)).
    cbn [dict_get]. now rewrite Hl.
Qed.

Lemma remove_book_spec_witness :
  (exists w' s',
     remove_book 1%positive (VStr "The Scar") fantasy_world
     = (Returns tt, w') /\
     heap w' !! 1%positive = Some (OShelf s') /\
     shelf_name s' = shelf_name fantasy /\
     _books s' !! "The Scar" = None /\
     (forall k, k <> "The Scar" -> _books s' !! k = _books fantasy !! k) /\
     size (_books s') = pred (size (_books fantasy)) /\
     (forall l, l <> 1%positive ->
                heap w' !! l = heap fantasy_world !! l) /\
     stdout w' = stdout fantasy_world) /\
  remove_book 1%positive (VStr "Dune") fantasy_world =
  (Returns tt,
   mkWorld (heap fantasy_world)
           (stdout fantasy_world ++ [NotFound "Dune" (shelf_name fantasy)])).
Proof.
  split.
  - apply (remove_book_spec fantasy_world 1%positive fantasy "The Scar");
      [reflexivity | eexists; reflexivity].
  - apply (remove_book_spec fantasy_world 1%positive fantasy "Dune");
      reflexivity.
Defined.

(** ** Adding to a shelf *)

(** What [key_and_book] hands over is a Book of the store whose title is
    the key, and never the shelf it is added to. *)
Lemma key_and_book_is_Book item w key l w1 :
  key_and_book item w = (Returns (key, l), w1) ->
  exists b, heap w1 !! l = Some (OBook b) /\ title b = key.
Proof.
  intros H. destruct (key_and_book_returns _ _ _ _ _ H)
    as [(b & _ & Hb & -> & ->)|(label & _ & _ & _ & Hn)].
  - eauto.
  - apply new_extends in Hn as (_ & _ & Hn). eauto.
Qed.

(** The loop body on a key that is not on the shelf: one more entry. *)
Lemma add_books_body_new w self s item key to_add w1 :
  heap w !! self = Some (OShelf s) ->
  key_and_book item w = (Returns (key, to_add), w1) ->
  _books s !! key = None ->
  add_books_body self item w =
  (Returns tt,
   mkWorld (<[self := OShelf (set_books s (<[key := to_add]> (_books s)))]>
              (heap w1)) (stdout w)).
Proof.
  intros Hs Hk Hnone.
  destruct (key_and_book_extends _ _ _ _ _ Hk) as [Hout Hext].
  unfold add_books_body.
  rewrite (bind_returns _ _ _ _ _ Hk).
  rewrite (bind_returns _ _ _ _ _ (get_Shelf_returns _ _ _ (Hext _ _ Hs))).
  rewrite Hnone. unfold store. now rewrite Hout.
Qed.

Lemma key_and_book_instance w l b :
  heap w !! l = Some (OBook b) ->
  key_and_book (VRef l) w = (Returns (title b, l), w).
Proof.
  intros H. unfold key_and_book.
  rewrite (bind_returns _ _ _ _ _ (isinstance_Book_instance _ _ _ H)).
  now rewrite (bind_returns _ _ _ _ _ (get_Book_returns _ _ _ H)).
Qed.

(** X8.  A Book instance whose title is not yet a key is put on the shelf
    by reference: the shelf gets one more entry, which maps the title to
    the very object passed in, with the counts it has (they are not
    reset); nothing is printed and no other object changes. *)
Theorem add_books_new_instance
    (w : world) (self : loc) (s : Shelf) (incoming : loc) (bi : Book) :
  heap w !! self = Some (OShelf s) ->
  heap w !! incoming = Some (OBook bi) ->
  _books s !! title bi = None ->
  exists w' s',
    add_books self [VRef incoming] w = (Returns tt, w') /\
    heap w' !! self = Some (OShelf s') /\
    shelf_name s' = shelf_name s /\
    _books s' = <[title bi := incoming]> (_books s) /\
    size (_books s') = S (size (_books s)) /\
    get_book self (VStr (title bi)) w' = (Returns (VRef incoming), w') /\
    heap w' !! incoming = Some (OBook bi) /\
    (forall l, l <> self -> heap w' !! l = heap w !! l) /\
    stdout w' = stdout w.
Proof.
  intros Hs Hi Hnone.
  assert (Hne : incoming <> self) by congruence.
  set (s' := set_books s (<[title bi := incoming]> (_books s))).
  set (w' := mkWorld (<[self := OShelf s']> (heap w)) (stdout w)).
  assert (Hs' : heap w' !! self = Some (OShelf s')) by apply lookup_insert_eq.
  exists w', s'.
  split.
  { unfold add_books. rewrite for_each_single.
    apply (add_books_body_new w self s (VRef incoming) (title bi) incoming w
             Hs (key_and_book_instance _ _ _ Hi) Hnone). }
  split; [exact Hs'|]. split; [reflexivity|]. split; [reflexivity|].
  split; [now apply map_size_insert_None|].
  split.
  { apply (get_book_found w' self s' (title bi) incoming Hs').
    apply lookup_insert_eq. }
  split; [cbn; now rewrite lookup_insert_ne|].
  split; [|reflexivity].
  intros l Hl. cbn. now rewrite lookup_insert_ne.
Qed.

Lemma add_books_new_instance_witness :
  exists w' s',
    add_books 1%positive [VRef 2%positive] dune_off_shelf = (Returns tt, w') /\
    heap w' !! 1%positive = Some (OShelf s') /\
    shelf_name s' = shelf_name (science_fiction ∅) /\
    _books s' = <[title (dune 1 1) := 2%positive]> (_books (science_fiction ∅)) /\
    size (_books s') = S (size (_books (science_fiction ∅))) /\
    get_book 1%positive (VStr (title (dune 1 1))) w'
    = (Returns (VRef 2%positive), w') /\
    heap w' !! 2%positive = Some (OBook (dune 1 1)) /\
    (forall l, l <> 1%positive -> heap w' !! l = heap dune_off_shelf !! l) /\
    stdout w' = stdout dune_off_shelf.
Proof.
  apply (add_books_new_instance dune_off_shelf 1%positive (science_fiction ∅)
           2%positive (dune 1 1)); reflexivity.
Defined.

Lemma for_each_cons_returns {A} (x : A) (xs : list A) (body : A -> M unit) w w1 :
  body x w = (Returns tt, w1) ->
  for_each (x :: xs) body w = for_each xs body w1.
Proof. intros H. cbn [for_each]. now rewrite (bind_returns _ _ _ _ _ H). Qed.

Lemma key_and_book_literal item label w :
  literal_str item = Some label ->
  key_and_book item w
  = (Returns (str_title label, fresh (dom (heap w))),
     mkWorld (<[fresh (dom (heap w))
                := OBook (mkBook (str_title label) "" 0 "" 1 1)]> (heap w))
             (stdout w)).
Proof. destruct item; intros [= <-]; reflexivity. Qed.

(** [remove_book] on a key of the shelf, as an equation. *)
Lemma remove_book_present w self s (title : string) l :
  heap w !! self = Some (OShelf s) ->
  _books s !! title = Some l ->
  remove_book self (VStr title) w
  = (Returns tt,
     mkWorld (<[self := OShelf (set_books s (delete title (_books s)))]>
                (heap w)) (stdout w)).
Proof.
  intros H Hl. unfold remove_book.
  rewrite (bind_returns _ _ _ _ _ (get_Shelf_returns _ _ _ H)).
  cbn [dict_get dict_del]. now rewrite Hl.
Qed.

(** X9.  Adding under a new key and removing that key again gives the
    shelf back as it was, whatever the item added: both calls return,
    nothing is printed, and the shelf has its earlier entries. *)
Theorem add_books_remove_book_roundtrip
    (w : world) (self : loc) (s : Shelf) (item : value)
    (key : string) (to_add : loc) (w1 : world) :
  heap w !! self = Some (OShelf s) ->
  key_and_book item w = (Returns (key, to_add), w1) ->
  _books s !! key = None ->
  exists w' w'',
    add_books self [item] w = (Returns tt, w') /\
    remove_book self (VStr key) w' = (Returns tt, w'') /\
    heap w'' !! self = Some (OShelf s) /\
    stdout w'' = stdout w.
Proof.
  intros Hs Hk Hnone.
  set (s' := set_books s (<[key := to_add]> (_books s))).
  set (w' := mkWorld (<[self := OShelf s']> (heap w1)) (stdout w)).
  assert (Hs' : heap w' !! self = Some (OShelf s')) by apply lookup_insert_eq.
  assert (Hl : _books s' !! key = Some to_add) by apply lookup_insert_eq.
  eexists w', _.
  split.
  { unfold add_books. rewrite for_each_single.
    now apply (add_books_body_new w self s item key to_add w1). }
  split; [apply (remove_book_present w' self s' key to_add Hs' Hl)|].
  cbn. split; [|reflexivity].
  rewrite lookup_insert_eq. unfold set_books. cbn.
  rewrite delete_insert_id by exact Hnone. now destruct s.
Qed.

Lemma add_books_remove_book_roundtrip_witness :
  exists w' w'',
    add_books 1%positive [VStr "perdido street station"] fantasy_world
    = (Returns tt, w') /\
    remove_book 1%positive (VStr "Perdido Street Station") w'
    = (Returns tt, w'') /\
    heap w'' !! 1%positive = Some (OShelf fantasy) /\
    stdout w'' = stdout fantasy_world.
Proof.
  apply (add_books_remove_book_roundtrip fantasy_world 1%positive fantasy
           (VStr "perdido street station") "Perdido Street Station"
           4%positive
           (mkWorld (<[4%positive
                       := OBook (mkBook "Perdido Street Station" "" 0 "" 1 1)]>
                       (heap fantasy_world)) []));
    reflexivity.
Defined.

(** X10.  The same label twice in one call files one Book with two
    copies: the first turn creates the Book under the title-cased label,
    the second finds that key and adds a copy to it. *)
Theorem add_books_same_label_twice
    (w : world) (self : loc) (s : Shelf) (item : value) (label : string) :
  heap w !! self = Some (OShelf s) ->
  literal_str item = Some label ->
  _books s !! str_title label = None ->
  exists w' l s' b,
    add_books self [item; item] w = (Returns tt, w') /\
    heap w' !! self = Some (OShelf s') /\
    _books s' = <[str_title label := l]> (_books s) /\
    size (_books s') = S (size (_books s)) /\
    heap w' !! l = Some (OBook b) /\
    title b = str_title label /\
    _copies b = 2 /\
    _maxcopies b = 2.
Proof.
  intros Hs Hlit Hnone.
  set (key := str_title label) in *.
  set (l := fresh (dom (heap w))).
  set (nb := mkBook key "" 0 "" 1 1).
  assert (Hfresh : heap w !! l = None) by apply fresh_loc_unused.
  assert (Hne : l <> self) by congruence.
  pose proof (key_and_book_literal item label w Hlit) as Hk. fold key l nb in Hk.
  pose proof (add_books_body_new _ _ _ _ _ _ _ Hs Hk Hnone) as Hfirst.
  set (s' := set_books s (<[key := l]> (_books s))) in *.
  match type of Hfirst with _ = (_, ?x) => set (wa := x) in * end.
  assert (Hsa : heap wa !! self = Some (OShelf s')) by apply lookup_insert_eq.
  assert (Hla : heap wa !! l = Some (OBook nb)).
  { cbn. rewrite lookup_insert_ne by congruence. apply lookup_insert_eq. }
  pose proof (key_and_book_literal item label wa Hlit) as Hk2. fold key in Hk2.
  assert (Hin : _books s' !! key = Some l) by apply lookup_insert_eq.
  pose proof (add_books_body_existing _ _ _ _ _ _ _ _ _ Hsa Hk2 Hin Hla)
    as Hsecond.
  destruct (key_and_book_extends _ _ _ _ _ Hk2) as [_ Hext].
  eexists _, l, s', (with_copies nb 1 1).
  split.
  { unfold add_books.
    rewrite (for_each_cons_returns _ _ _ _ _ Hfirst), for_each_single.
    exact Hsecond. }
  cbn [heap]. split.
  { rewrite lookup_insert_ne by congruence. now apply Hext. }
  split; [reflexivity|].
  split; [now apply map_size_insert_None|].
  split; [apply lookup_insert_eq|]. now cbn.
Qed.

Lemma add_books_same_label_twice_witness :
  exists w' l s' b,
    add_books 1%positive [VInt 1984; VInt 1984] fantasy_world
    = (Returns tt, w') /\
    heap w' !! 1%positive = Some (OShelf s') /\
    _books s' = <[str_title "1984" := l]> (_books fantasy) /\
    size (_books s') = S (size (_books fantasy)) /\
    heap w' !! l = Some (OBook b) /\
    title b = str_title "1984" /\
    _copies b = 2 /\
    _maxcopies b = 2.
Proof.
  apply (add_books_same_label_twice fantasy_world 1%positive fantasy
           (VInt 1984) "1984"); reflexivity.
Defined.

(** X11.  The same Book instance twice in one call: the first turn puts
    the instance on the shelf, the second finds its title there and adds
    a copy to the instance itself, so the caller's Book ends with one
    more available and one more total copy than it was given with. *)
Theorem add_books_same_instance_twice
    (w : world) (self : loc) (s : Shelf) (incoming : loc) (bi : Book) :
  heap w !! self = Some (OShelf s) ->
  heap w !! incoming = Some (OBook bi) ->
  _books s !! title bi = None ->
  exists w' s' b',
    add_books self [VRef incoming; VRef incoming] w = (Returns tt, w') /\
    heap w' !! self = Some (OShelf s') /\
    _books s' = <[title bi := incoming]> (_books s) /\
    heap w' !! incoming = Some (OBook b') /\
    _copies b' = _copies bi + 1 /\
    _maxcopies b' = _maxcopies bi + 1.
Proof.
  intros Hs Hi Hnone.
  assert (Hne : incoming <> self) by congruence.
  pose proof (add_books_body_new _ _ _ _ _ _ _ Hs
                (key_and_book_instance _ _ _ Hi) Hnone) as Hfirst.
  set (s' := set_books s (<[title bi := incoming]> (_books s))) in *.
  match type of Hfirst with _ = (_, ?x) => set (wa := x) in * end.
  assert (Hsa : heap wa !! self = Some (OShelf s')) by apply lookup_insert_eq.
  assert (Hia : heap wa !! incoming = Some (OBook bi)).
  { cbn. now rewrite lookup_insert_ne by congruence. }
  assert (Hin : _books s' !! title bi = Some incoming)
    by apply lookup_insert_eq.
  pose proof (add_books_body_existing _ _ _ _ _ _ _ _ _ Hsa
                (key_and_book_instance _ _ _ Hia) Hin Hia) as Hsecond.
  eexists _, s', (with_copies bi 1 1).
  split.
  { unfold add_books.
    rewrite (for_each_cons_returns _ _ _ _ _ Hfirst), for_each_single.
    exact Hsecond. }
  cbn [heap]. split.
  { rewrite lookup_insert_ne by congruence. exact Hsa. }
  split; [reflexivity|]. split; [apply lookup_insert_eq|]. now cbn.
Qed.

Lemma add_books_same_instance_twice_witness :
  exists w' s' b',
    add_books 1%positive [VRef 2%positive; VRef 2%positive] dune_off_shelf
    = (Returns tt, w') /\
    heap w' !! 1%positive = Some (OShelf s') /\
    _books s' = <[title (dune 1 1) := 2%positive]> (_books (science_fiction ∅)) /\
    heap w' !! 2%positive = Some (OBook b') /\
    _copies b' = _copies (dune 1 1) + 1 /\
    _maxcopies b' = _maxcopies (dune 1 1) + 1.
Proof.
  apply (add_books_same_instance_twice dune_off_shelf 1%positive
           (science_fiction ∅) 2%positive (dune 1 1)); reflexivity.
Defined.

(** ** The filing invariant of a shelf *)

(** [key_and_book] returns for every value that refers to something. *)
Lemma key_and_book_total item w :
  value_ok w item ->
  exists key l w1, key_and_book item w = (Returns (key, l), w1).
Proof.
  destruct item as [t|z| |li]; cbn [value_ok].
  - intros _. eexists _, _, _. now apply (key_and_book_literal (VStr t) t).
  - intros _. eexists _, _, _. now apply (key_and_book_literal (VInt z)).
  - intros _. eexists _, _, _. now apply (key_and_book_literal VNone).
  - intros [o Ho]. destruct o as [x|sh|b].
    + eexists _, _, _. unfold key_and_book. cbn. unfold_monad.
      rewrite Ho. cbn. rewrite Ho. reflexivity.
    + eexists _, _, _. unfold key_and_book. cbn. unfold_monad.
      rewrite Ho. cbn. rewrite Ho. reflexivity.
    + eexists _, _, _. exact (key_and_book_instance _ _ _ Ho).
Qed.

(** One turn of the loop of [add_books] keeps the invariant. *)
Lemma add_books_body_keeps_filing item w self s :
  heap w !! self = Some (OShelf s) ->
  filed_under_title w s ->
  value_ok w item ->
  exists w' s',
    add_books_body self item w = (Returns tt, w') /\
    heap w' !! self = Some (OShelf s') /\
    shelf_name s' = shelf_name s /\
    filed_under_title w' s' /\
    _books s ⊆ _books s' /\
    stdout w' = stdout w /\
    (forall l, is_Some (heap w !! l) -> is_Some (heap w' !! l)).
Proof.
  intros Hs Hfiled Hok.
  destruct (key_and_book_total item w Hok) as (key & l & w1 & Hk).
  destruct (key_and_book_extends _ _ _ _ _ Hk) as [Hout Hext].
  destruct (key_and_book_is_Book _ _ _ _ _ Hk) as (nb & Hnb & Hnt).
  pose proof (Hext _ _ Hs) as Hs1.
  destruct (_books s !! key) as [existing|] eqn:Hin.
  - destruct (Hfiled _ _ Hin) as (b & Hb & Hbt).
    assert (Hne : existing <> self) by congruence.
    eexists _, s.
    split; [apply (add_books_body_existing _ _ _ _ _ _ _ _ _ Hs Hk Hin Hb)|].
    cbn [heap stdout].
    split; [now rewrite lookup_insert_ne|].
    split; [reflexivity|].
    split.
    { intros k l0 Hl0. cbn [heap].
      destruct (Hfiled _ _ Hl0) as (b0 & Hb0 & Hb0t).
      destruct (decide (l0 = existing)) as [->|Hl].
      - rewrite lookup_insert_eq. eexists. split; [reflexivity|].
        cbn. congruence.
      - rewrite lookup_insert_ne by congruence. eauto. }
    split; [reflexivity|]. split; [reflexivity|].
    intros l0 [o Ho]. destruct (decide (l0 = existing)) as [->|Hl].
    + rewrite lookup_insert_eq. eauto.
    + rewrite lookup_insert_ne by congruence. eauto.
  - assert (Hne : l <> self) by congruence.
    eexists _, (set_books s (<[key := l]> (_books s))).
    split; [apply (add_books_body_new _ _ _ _ _ _ _ Hs Hk Hin)|].
    cbn [heap stdout].
    split; [apply lookup_insert_eq|].
    split; [reflexivity|].
    split.
    { intros k l0. cbn [_books set_books heap]. intros Hl0.
      destruct (decide (k = key)) as [->|Hkk].
      - rewrite lookup_insert_eq in Hl0. injection Hl0 as <-.
        rewrite lookup_insert_ne by congruence. eauto.
      - rewrite lookup_insert_ne in Hl0 by congruence.
        destruct (Hfiled _ _ Hl0) as (b0 & Hb0 & Hb0t).
        assert (l0 <> self) by congruence.
        rewrite lookup_insert_ne by congruence. eauto. }
    split; [now apply insert_subseteq|]. split; [reflexivity|].
    intros l0 [o Ho]. destruct (decide (l0 = self)) as [->|Hl].
    + rewrite lookup_insert_eq. eauto.
    + rewrite lookup_insert_ne by congruence. eauto.
Qed.

(** X12.  [add_books] keeps the shelf in order for any list of items.  If
    every entry of the shelf is a Book filed under its own title and the
    items refer to objects of the store, the call returns without
    printing, the shelf keeps its name and all its entries (each key maps
    to the same Book object as before), and afterwards every entry is
    again a Book filed under its own title. *)
Theorem add_books_keeps_filing (args : list value) :
  forall (w : world) (self : loc) (s : Shelf),
    heap w !! self = Some (OShelf s) ->
    filed_under_title w s ->
    Forall (value_ok w) args ->
    exists w' s',
      add_books self args w = (Returns tt, w') /\
      heap w' !! self = Some (OShelf s') /\
      shelf_name s' = shelf_name s /\
      filed_under_title w' s' /\
      _books s ⊆ _books s' /\
      stdout w' = stdout w.
Proof.
  induction args as [|item args IH]; intros w self s Hs Hfiled Hok.
  - exists w, s. repeat split; auto.
  - apply Forall_cons in Hok as [Hitem Hrest].
    destruct (add_books_body_keeps_filing item w self s Hs Hfiled Hitem)
      as (w1 & s1 & Hrun & Hs1 & Hname1 & Hfiled1 & Hsub1 & Hout1 & Hgrow).
    assert (Hrest1 : Forall (value_ok w1) args).
    { eapply Forall_impl; [exact Hrest|].
      intros [| | |l]; cbn; auto. }
    destruct (IH w1 self s1 Hs1 Hfiled1 Hrest1)
      as (w2 & s2 & Hrun2 & Hs2 & Hname2 & Hfiled2 & Hsub2 & Hout2).
    exists w2, s2.
    split.
    { unfold add_books in *.
      now rewrite (for_each_cons_returns _ _ _ _ _ Hrun). }
    split; [exact Hs2|]. split; [congruence|]. split; [exact Hfiled2|].
    split; [now transitivity (_books s1)|congruence].
Qed.

Lemma fantasy_filed : filed_under_title fantasy_world fantasy.
Proof.
  intros key l Hl.
  destruct (decide (key = "The Scar")) as [->|Hne].
  - vm_compute in Hl. injection Hl as <-.
    exists (the_scar 1). split; reflexivity.
  - unfold fantasy in Hl. cbn in Hl.
    rewrite lookup_singleton_ne in Hl by congruence. discriminate.
Defined.

Lemma add_books_keeps_filing_witness :
  exists w' s',
    add_books 1%positive
      [VStr "the scar"; VRef 3%positive; VInt 1984; VRef 1%positive; VNone]
      fantasy_world = (Returns tt, w') /\
    heap w' !! 1%positive = Some (OShelf s') /\
    shelf_name s' = shelf_name fantasy /\
    filed_under_title w' s' /\
    _books fantasy ⊆ _books s' /\
    stdout w' = stdout fantasy_world.
Proof.
  apply (add_books_keeps_filing _ fantasy_world 1%positive fantasy).
  - reflexivity.
  - exact fantasy_filed.
  - repeat constructor; cbn; eexists; reflexivity.
Defined.

(** ** Adding to and looking up in a library *)

Lemma key_and_shelf_literal item label w :
  literal_str item = Some label ->
  key_and_shelf item w
  = (Returns (label, fresh (dom (heap w))),
     mkWorld (<[fresh (dom (heap w)) := OShelf (mkShelf label ∅)]> (heap w))
             (stdout w)).
Proof. destruct item; intros [= <-]; reflexivity. Qed.

Lemma key_and_shelf_instance w l sh :
  heap w !! l = Some (OShelf sh) ->
  key_and_shelf (VRef l) w = (Returns (shelf_name sh, l), w).
Proof.
  intros H. unfold key_and_shelf, try_except_AttributeError, shelf_by_name.
  unfold_monad. now rewrite H.
Qed.

Lemma key_and_shelf_library w l x :
  heap w !! l = Some (OLibrary x) ->
  key_and_shelf (VRef l) w = (Returns (library_name x, l), w).
Proof.
  intros H. unfold key_and_shelf, try_except_AttributeError, shelf_by_name.
  unfold_monad. now rewrite H.
Qed.

Lemma Book_str_returns w l b :
  heap w !! l = Some (OBook b) ->
  Book_str l w
  = (Returns ("Title: " ++ title b ++ newline ++
              "Author: " ++ author b ++ newline ++
              "Pages: " ++ str_int (page_count b) ++ newline ++
              "Copies: " ++ (str_int (_copies b) ++ " / "
                             ++ str_int (_maxcopies b)) ++ newline ++
              "Description: " ++ desc b), w).
Proof.
  intros H. unfold Book_str.
  rewrite (bind_returns _ _ _ _ _ (get_Book_returns _ _ _ H)).
  now rewrite (bind_returns _ _ _ _ _ (copy_str_returns _ _ _ H)).
Qed.

Lemma key_and_shelf_book w l b text :
  heap w !! l = Some (OBook b) ->
  Book_str l w = (Returns text, w) ->
  key_and_shelf (VRef l) w
  = (Returns (text, fresh (dom (heap w))),
     mkWorld (<[fresh (dom (heap w)) := OShelf (mkShelf text ∅)]> (heap w))
             (stdout w)).
Proof.
  intros H Ht. unfold key_and_shelf, try_except_AttributeError, shelf_by_name.
  unfold deref, bind at 1. rewrite H. cbn [raise].
  assert (Hs : py_str (VRef l) w = (Returns text, w)).
  { cbn [py_str]. unfold deref, bind at 1. now rewrite H. }
  now rewrite (bind_returns _ _ _ _ _ Hs).
Qed.

(** The loop body of [add_shelves] on a name that is not in the library. *)
Lemma add_shelves_body_new w self x item key to_add w1 :
  heap w !! self = Some (OLibrary x) ->
  key_and_shelf item w = (Returns (key, to_add), w1) ->
  _shelves x !! key = None ->
  add_shelves_body self item w =
  (Returns tt,
   mkWorld (<[self := OLibrary (set_shelves x (<[key := to_add]> (_shelves x)))]>
              (heap w1)) (stdout w)).
Proof.
  intros Hx Hk Hnone.
  destruct (key_and_shelf_extends _ _ _ _ _ Hk) as [Hout Hext].
  unfold add_shelves_body.
  rewrite (bind_returns _ _ _ _ _ Hk).
  rewrite (bind_returns _ _ _ _ _ (get_Library_returns _ _ _ (Hext _ _ Hx))).
  rewrite Hnone. unfold store. now rewrite Hout.
Qed.

Lemma get_shelf_found w self x (name : string) l :
  heap w !! self = Some (OLibrary x) ->
  _shelves x !! name = Some l ->
  get_shelf self (VStr name) w = (Returns (VRef l), w).
Proof.
  intros H Hl. unfold get_shelf.
  rewrite (bind_returns _ _ _ _ _ (get_Library_returns _ _ _ H)).
  unfold try_except_KeyError. cbn [dict_get]. now rewrite Hl.
Qed.

(** X13.  [get_shelf] looks the name up as it is given: when it is a key
    of the library the shelf filed there is returned and nothing is
    printed; when it is not, the [KeyError] of the dictionary is caught,
    the not-found line is printed and [None] is returned.  The store is
    unchanged either way. *)
Theorem get_shelf_spec (w : world) (self : loc) (x : Library) (name : string) :
  heap w !! self = Some (OLibrary x) ->
  (forall l, _shelves x !! name = Some l ->
             get_shelf self (VStr name) w = (Returns (VRef l), w)) /\
  (_shelves x !! name = None ->
   get_shelf self (VStr name) w =
   (Returns VNone,
    mkWorld (heap w) (stdout w ++ [ShelfNotFound name (library_name x)]))).
Proof.
  intros H. split; [intros l Hl|intros Hl]; unfold get_shelf;
    rewrite (bind_returns _ _ _ _ _ (get_Library_returns _ _ _ H));
    unfold try_except_KeyError; cbn [dict_get]; rewrite Hl; reflexivity.
Qed.

Lemma get_shelf_spec_witness :
  get_shelf 4%positive (VStr "Fantasy") bellevue_world
  = (Returns (VRef 1%positive), bellevue_world) /\
  get_shelf 4%positive (VStr "fantasy") bellevue_world =
  (Returns VNone,
   mkWorld (heap bellevue_world)
           (stdout bellevue_world
            ++ [ShelfNotFound "fantasy" (library_name bellevue)])).
Proof.
  split.
  - apply (get_shelf_spec bellevue_world 4%positive bellevue "Fantasy");
      reflexivity.
  - apply (get_shelf_spec bellevue_world 4%positive bellevue "fantasy");
      reflexivity.
Defined.

(** X14.  A string, a number or [None] whose string is not yet a name of
    the library makes a new, empty Shelf of that name (taken as it is:
    shelf names are not title-cased), filed under it: the library has one
    more shelf, [get_shelf] finds it, and nothing is printed. *)
Theorem add_shelves_new_label
    (w : world) (self : loc) (x : Library) (item : value) (label : string) :
  heap w !! self = Some (OLibrary x) ->
  literal_str item = Some label ->
  _shelves x !! label = None ->
  exists w' l x',
    add_shelves self [item] w = (Returns tt, w') /\
    heap w !! l = None /\
    heap w' !! l = Some (OShelf (mkShelf label ∅)) /\
    heap w' !! self = Some (OLibrary x') /\
    library_name x' = library_name x /\
    _shelves x' = <[label := l]> (_shelves x) /\
    size (_shelves x') = S (size (_shelves x)) /\
    get_shelf self (VStr label) w' = (Returns (VRef l), w') /\
    stdout w' = stdout w.
Proof.
  intros Hx Hlit Hnone.
  set (l := fresh (dom (heap w))).
  assert (Hfresh : heap w !! l = None) by apply fresh_loc_unused.
  assert (Hne : l <> self) by congruence.
  set (x' := set_shelves x (<[label := l]> (_shelves x))).
  pose proof (add_shelves_body_new _ _ _ _ _ _ _ Hx
                (key_and_shelf_literal item label w Hlit) Hnone) as Hrun.
  fold l x' in Hrun.
  match type of Hrun with _ = (_, ?y) => set (w' := y) in * end.
  assert (Hx' : heap w' !! self = Some (OLibrary x')) by apply lookup_insert_eq.
  exists w', l, x'.
  split; [unfold add_shelves; now rewrite for_each_single|].
  split; [exact Hfresh|].
  split.
  { cbn. rewrite lookup_insert_ne by congruence. apply lookup_insert_eq. }
  split; [exact Hx'|]. split; [reflexivity|]. split; [reflexivity|].
  split; [now apply map_size_insert_None|].
  split; [|reflexivity].
  apply (get_shelf_found w' self x' label l Hx'). apply lookup_insert_eq.
Qed.

Lemma add_shelves_new_label_witness :
  exists w' l x',
    add_shelves 4%positive [VStr "fantasy"] bellevue_world = (Returns tt, w') /\
    heap bellevue_world !! l = None /\
    heap w' !! l = Some (OShelf (mkShelf "fantasy" ∅)) /\
    heap w' !! 4%positive = Some (OLibrary x') /\
    library_name x' = library_name bellevue /\
    _shelves x' = <[ "fantasy" := l]> (_shelves bellevue) /\
    size (_shelves x') = S (size (_shelves bellevue)) /\
    get_shelf 4%positive (VStr "fantasy") w' = (Returns (VRef l), w') /\
    stdout w' = stdout bellevue_world.
Proof.
  apply (add_shelves_new_label bellevue_world 4%positive bellevue
           (VStr "fantasy") "fantasy"); reflexivity.
Defined.

(** X15.  A Shelf instance whose name is not yet in the library is filed
    by reference: the library maps the name to the very object passed in,
    with the Books it has; the library has one more shelf, [get_shelf]
    returns that object, nothing is printed and no other object
    changes. *)
Theorem add_shelves_new_instance
    (w : world) (self : loc) (x : Library) (incoming : loc) (sh : Shelf) :
  heap w !! self = Some (OLibrary x) ->
  heap w !! incoming = Some (OShelf sh) ->
  _shelves x !! shelf_name sh = None ->
  exists w' x',
    add_shelves self [VRef incoming] w = (Returns tt, w') /\
    heap w' !! self = Some (OLibrary x') /\
    library_name x' = library_name x /\
    _shelves x' = <[shelf_name sh := incoming]> (_shelves x) /\
    size (_shelves x') = S (size (_shelves x)) /\
    get_shelf self (VStr (shelf_name sh)) w' = (Returns (VRef incoming), w') /\
    heap w' !! incoming = Some (OShelf sh) /\
    (forall l, l <> self -> heap w' !! l = heap w !! l) /\
    stdout w' = stdout w.
Proof.
  intros Hx Hi Hnone.
  assert (Hne : incoming <> self) by congruence.
  set (x' := set_shelves x (<[shelf_name sh := incoming]> (_shelves x))).
  pose proof (add_shelves_body_new _ _ _ _ _ _ _ Hx
                (key_and_shelf_instance _ _ _ Hi) Hnone) as Hrun.
  fold x' in Hrun.
  match type of Hrun with _ = (_, ?y) => set (w' := y) in * end.
  assert (Hx' : heap w' !! self = Some (OLibrary x')) by apply lookup_insert_eq.
  exists w', x'.
  split; [unfold add_shelves; now rewrite for_each_single|].
  split; [exact Hx'|]. split; [reflexivity|]. split; [reflexivity|].
  split; [now apply map_size_insert_None|].
  split.
  { apply (get_shelf_found w' self x' (shelf_name sh) incoming Hx').
    apply lookup_insert_eq. }
  split; [cbn; now rewrite lookup_insert_ne|].
  split; [|reflexivity].
  intros l Hl. cbn. now rewrite lookup_insert_ne.
Qed.

Lemma add_shelves_new_instance_witness :
  exists w' x',
    add_shelves 4%positive [VRef 1%positive]
      (mkWorld (<[4%positive := OLibrary (mkLibrary "Bellevue" ∅)]>
                  (heap fantasy_world)) [])
    = (Returns tt, w') /\
    heap w' !! 4%positive = Some (OLibrary x') /\
    library_name x' = library_name (mkLibrary "Bellevue" ∅) /\
    _shelves x' = <[shelf_name fantasy := 1%positive]>
                    (_shelves (mkLibrary "Bellevue" ∅)) /\
    size (_shelves x') = S (size (_shelves (mkLibrary "Bellevue" ∅))) /\
    get_shelf 4%positive (VStr (shelf_name fantasy)) w'
    = (Returns (VRef 1%positive), w') /\
    heap w' !! 1%positive = Some (OShelf fantasy) /\
    (forall l, l <> 4%positive ->
               heap w' !! l
               = heap (mkWorld (<[4%positive := OLibrary (mkLibrary "Bellevue" ∅)]>
                                  (heap fantasy_world)) []) !! l) /\
    stdout w' = [].
Proof.
  apply (add_shelves_new_instance
           (mkWorld (<[4%positive := OLibrary (mkLibrary "Bellevue" ∅)]>
                       (heap fantasy_world)) [])
           4%positive (mkLibrary "Bellevue" ∅) 1%positive fantasy);
    reflexivity.
Defined.

(** X16.  A Book passed to [add_shelves] has no [name]: the
    [AttributeError] is caught and a new, empty Shelf is made whose name
    is the whole text of the Book ([str] of it, five lines); the Book
    itself is not filed. *)
Theorem add_shelves_book_instance
    (w : world) (self : loc) (x : Library) (book : loc) (b : Book)
    (text : string) :
  heap w !! self = Some (OLibrary x) ->
  heap w !! book = Some (OBook b) ->
  Book_str book w = (Returns text, w) ->
  _shelves x !! text = None ->
  exists w' l x',
    add_shelves self [VRef book] w = (Returns tt, w') /\
    l <> book /\
    heap w' !! l = Some (OShelf (mkShelf text ∅)) /\
    heap w' !! self = Some (OLibrary x') /\
    _shelves x' = <[text := l]> (_shelves x) /\
    stdout w' = stdout w.
Proof.
  intros Hx Hb Ht Hnone.
  set (l := fresh (dom (heap w))).
  assert (Hfresh : heap w !! l = None) by apply fresh_loc_unused.
  assert (Hne : l <> self) by congruence.
  assert (Hnb : l <> book) by congruence.
  pose proof (add_shelves_body_new _ _ _ _ _ _ _ Hx
                (key_and_shelf_book _ _ _ _ Hb Ht) Hnone) as Hrun.
  fold l in Hrun.
  eexists _, l, _.
  split; [unfold add_shelves; rewrite for_each_single; exact Hrun|].
  split; [exact Hnb|]. cbn.
  split; [rewrite lookup_insert_ne by congruence; apply lookup_insert_eq|].
  split; [apply lookup_insert_eq|]. split; reflexivity.
Qed.

Lemma add_shelves_book_instance_witness :
  exists w' l x',
    add_shelves 4%positive [VRef 2%positive] bellevue_world
    = (Returns tt, w') /\
    l <> 2%positive /\
    heap w' !! l
    = Some (OShelf (mkShelf
         ("Title: The Scar" ++ newline ++ "Author: China Mieville" ++ newline
          ++ "Pages: 608" ++ newline ++ "Copies: 1 / 1" ++ newline
          ++ "Description: ") ∅)) /\
    heap w' !! 4%positive = Some (OLibrary x') /\
    _shelves x' =
      <[ "Title: The Scar" ++ newline ++ "Author: China Mieville" ++ newline
         ++ "Pages: 608" ++ newline ++ "Copies: 1 / 1" ++ newline
         ++ "Description: " := l]> (_shelves bellevue) /\
    stdout w' = stdout bellevue_world.
Proof.
  apply (add_shelves_book_instance bellevue_world 4%positive bellevue
           2%positive (the_scar 1)); reflexivity.
Defined.

(** ** The listings *)

Lemma report_returns w l b :
  heap w !! l = Some (OBook b) ->
  report l w = (Returns (report_line b), w).
Proof.
  intros H. unfold report.
  rewrite (bind_returns _ _ _ _ _ (get_Book_returns _ _ _ H)).
  now rewrite (bind_returns _ _ _ _ _ (copy_str_returns _ _ _ H)).
Qed.

Lemma call_report_returns w l b :
  heap w !! l = Some (OBook b) ->
  call_report l w = (Returns (report_line b), w).
Proof.
  intros H. unfold call_report, deref, bind. rewrite H.
  now apply report_returns.
Qed.

(** Printing every element of a list appends the list to the output. *)
Lemma for_each_print lines : forall w,
  for_each lines print w
  = (Returns tt, mkWorld (heap w) (stdout w ++ lines)).
Proof.
  induction lines as [|line lines IH]; intros w.
  - cbn. rewrite app_nil_r. now destruct w.
  - cbn [for_each]. unfold bind at 1, print at 1.
    rewrite IH. cbn. now rewrite <- app_assoc.
Qed.

(** The loop of [report_books] over locations that hold Books. *)
Lemma report_loop locs : forall bs w,
  Forall2 (fun l b => heap w !! l = Some (OBook b)) locs bs ->
  for_each locs (fun book => line <- call_report book ;; print line) w
  = (Returns tt, mkWorld (heap w) (stdout w ++ map report_line bs)).
Proof.
  induction locs as [|l locs IH]; intros bs w Hall.
  - apply Forall2_nil_inv_l in Hall as ->.
    cbn. rewrite app_nil_r. now destruct w.
  - apply Forall2_cons_inv_l in Hall as (b & bs' & Hb & Hrest & ->).
    cbn [for_each].
    erewrite (bind_returns (bind (call_report l) _)).
    2:{ rewrite (bind_returns _ _ _ _ _ (call_report_returns _ _ _ Hb)).
        reflexivity. }
    rewrite (IH bs') by exact Hrest.
    cbn. now rewrite <- app_assoc.
Qed.

(** The values of a dictionary, in any order of iteration, are the
    values of its entries. *)
Lemma iteritems_entries (iteritems : gmap string loc -> list (string * loc)) d kl :
  iteritems d ≡ₚ map_to_list d ->
  kl ∈ iteritems d -> d !! kl.1 = Some kl.2.
Proof.
  intros Hperm Hin. rewrite Hperm in Hin.
  destruct kl as [k l]. now apply elem_of_map_to_list in Hin.
Qed.

Lemma books_of_locs w (kls : list (string * loc)) :
  Forall (fun kl => exists b, heap w !! kl.2 = Some (OBook b)) kls ->
  exists bs, Forall2 (fun l b => heap w !! l = Some (OBook b)) kls.*2 bs.
Proof.
  induction kls as [|kl kls IH]; intros Hall.
  - exists []. constructor.
  - apply Forall_cons in Hall as [(b & Hb) Hrest].
    destruct (IH Hrest) as (bs & Hbs).
    exists (b :: bs). now constructor.
Qed.

Lemma books_of_entries (iteritems : gmap string loc -> list (string * loc)) w s :
  iteritems (_books s) ≡ₚ map_to_list (_books s) ->
  (forall key l, _books s !! key = Some l ->
                 exists b, heap w !! l = Some (OBook b)) ->
  exists bs,
    Forall2 (fun l b => heap w !! l = Some (OBook b))
            (iteritems (_books s)).*2 bs.
Proof.
  intros Hperm Hbooks. apply books_of_locs.
  apply Forall_forall. intros kl Hin.
  apply (Hbooks kl.1). now apply (iteritems_entries iteritems).
Qed.

(** X17.  [report_books] prints one table line for every Book of the
    shelf, in the order in which the dictionary yields them, each line
    being the [report] of that Book, and changes nothing in the store.
    It holds for every order of iteration, given that every entry of the
    shelf is a Book. *)
Theorem report_books_lines
    (iteritems : gmap string loc -> list (string * loc))
    (w : world) (self : loc) (s : Shelf) :
  (forall d, iteritems d ≡ₚ map_to_list d) ->
  heap w !! self = Some (OShelf s) ->
  (forall key l, _books s !! key = Some l ->
                 exists b, heap w !! l = Some (OBook b)) ->
  exists bs,
    Forall2 (fun l b => heap w !! l = Some (OBook b))
            (iteritems (_books s)).*2 bs /\
    report_books iteritems self w
    = (Returns tt, mkWorld (heap w) (stdout w ++ map report_line bs)) /\
    length bs = size (_books s).
Proof.
  intros Hperm Hs Hbooks.
  destruct (books_of_entries iteritems w s (Hperm _) Hbooks) as (bs & Hall).
  exists bs. split; [exact Hall|]. split.
  - unfold report_books.
    rewrite (bind_returns _ _ _ _ _ (get_Shelf_returns _ _ _ Hs)).
    now apply report_loop.
  - rewrite <- (Forall2_length _ _ _ Hall), length_fmap.
    rewrite (Permutation_length (Hperm (_books s))).
    apply length_map_to_list.
Qed.

Lemma key_order_perm d : key_order d ≡ₚ map_to_list d.
Proof. reflexivity. Defined.

Lemma fantasy_filed_books key l :
  _books fantasy !! key = Some l ->
  exists b, heap fantasy_world !! l = Some (OBook b).
Proof.
  intros Hl. destruct (fantasy_filed key l Hl) as (b & Hb & _). eauto.
Defined.

Lemma report_books_lines_witness :
  exists bs,
    Forall2 (fun l b => heap fantasy_world !! l = Some (OBook b))
            (key_order (_books fantasy)).*2 bs /\
    report_books key_order 1%positive fantasy_world
    = (Returns tt,
       mkWorld (heap fantasy_world)
               (stdout fantasy_world ++ map report_line bs)) /\
    length bs = size (_books fantasy).
Proof.
  apply (report_books_lines key_order fantasy_world 1%positive fantasy).
  - exact key_order_perm.
  - reflexivity.
  - exact fantasy_filed_books.
Defined.

(** X18.  [report_all_shelves] prints the names under which shelves are
    filed, each exactly once and nothing else, and changes nothing in
    the store; this holds for every order of iteration. *)
Theorem report_all_shelves_lines
    (iteritems : gmap string loc -> list (string * loc))
    (w : world) (self : loc) (x : Library) :
  (forall d, iteritems d ≡ₚ map_to_list d) ->
  heap w !! self = Some (OLibrary x) ->
  exists lines,
    report_all_shelves iteritems self w
    = (Returns tt, mkWorld (heap w) (stdout w ++ lines)) /\
    lines = (iteritems (_shelves x)).*1 /\
    NoDup lines /\
    (forall name, name ∈ lines <-> is_Some (_shelves x !! name)) /\
    length lines = size (_shelves x).
Proof.
  intros Hperm Hx. exists (iteritems (_shelves x)).*1.
  assert (Hp : (iteritems (_shelves x)).*1 ≡ₚ (map_to_list (_shelves x)).*1)
    by now rewrite (Hperm (_shelves x)).
  split.
  { unfold report_all_shelves.
    rewrite (bind_returns _ _ _ _ _ (get_Library_returns _ _ _ Hx)).
    apply for_each_print. }
  split; [reflexivity|].
  split; [rewrite Hp; apply NoDup_fst_map_to_list|].
  split.
  - intros name. rewrite Hp, list_elem_of_fmap. split.
    + intros ([k l] & -> & Hin). apply elem_of_map_to_list in Hin. eauto.
    + intros [l Hl]. exists (name, l). split; [reflexivity|].
      now apply elem_of_map_to_list.
  - rewrite (Permutation_length Hp), length_fmap. apply length_map_to_list.
Qed.

Lemma report_all_shelves_lines_witness :
  exists lines,
    report_all_shelves key_order 4%positive bellevue_world
    = (Returns tt,
       mkWorld (heap bellevue_world) (stdout bellevue_world ++ lines)) /\
    lines = (key_order (_shelves bellevue)).*1 /\
    NoDup lines /\
    (forall name, name ∈ lines <-> is_Some (_shelves bellevue !! name)) /\
    length lines = size (_shelves bellevue).
Proof.
  apply (report_all_shelves_lines key_order bellevue_world 4%positive bellevue).
  - exact key_order_perm.
  - reflexivity.
Defined.




Lemma py_str_library w self x :
  heap w !! self = Some (OLibrary x) ->
  py_str (VRef self) w = (Returns (library_name x), w).
Proof. intros H. cbn [py_str]. unfold deref, bind. now rewrite H. Qed.




(** X20.  [add_shelves] takes anything with a [name], so a Library can
    be filed as a shelf of a library; [report_all_books] then fails on
    it: after the title line, the header and the label line of that
    entry it raises [AttributeError], as a Library has no
    [report_books]. *)
Theorem library_filed_as_shelf
    (iteritems : gmap string loc -> list (string * loc))
    (w : world) (self : loc) (x : Library) (other : loc) (y : Library) :
  (forall d, iteritems d ≡ₚ map_to_list d) ->
  heap w !! self = Some (OLibrary x) ->
  _shelves x = ∅ ->
  heap w !! other = Some (OLibrary y) ->
  exists w',
    add_shelves self [VRef other] w = (Returns tt, w') /\
    get_shelf self (VStr (library_name y)) w' = (Returns (VRef other), w') /\
    report_all_books iteritems self w'
    = (Raises (AttributeError "report_books"),
       mkWorld (heap w')
         (stdout w
          ++ ["= All Books at " ++ library_name x ++ " ="; report_header;
              "Shelf - " ++ library_name y])).
Proof.
  intros Hperm Hx Hempty Hy.
  assert (Hnone : _shelves x !! library_name y = None)
    by (rewrite Hempty; apply lookup_empty).
  pose proof (add_shelves_body_new _ _ _ _ _ _ _ Hx
                (key_and_shelf_library _ _ _ Hy) Hnone) as Hrun.
  set (x' := set_shelves x (<[library_name y := other]> (_shelves x))) in *.
  match type of Hrun with _ = (_, ?z) => set (w' := z) in * end.
  assert (Hx' : heap w' !! self = Some (OLibrary x')) by apply lookup_insert_eq.
  assert (Hy' : exists y', heap w' !! other = Some (OLibrary y')
                           /\ library_name y' = library_name y).
  { destruct (decide (other = self)) as [->|Hne].
    - exists x'. split; [exact Hx'|]. cbn. congruence.
    - exists y. split; [|reflexivity]. cbn. now rewrite lookup_insert_ne. }
  destruct Hy' as (y' & Hy' & Hname).
  assert (Hitems : (iteritems (_shelves x')).*2 = [other]).
  { assert (Hl : iteritems (_shelves x') = [(library_name y, other)]).
    { apply Permutation_singleton_r. rewrite (Hperm (_shelves x')).
      unfold x'. cbn. rewrite Hempty, insert_empty.
      now rewrite map_to_list_singleton. }
    now rewrite Hl. }
  exists w'.
  split; [unfold add_shelves; now rewrite for_each_single|].
  split.
  { apply (get_shelf_found w' self x' (library_name y) other Hx').
    apply lookup_insert_eq. }
  unfold report_all_books.
  rewrite (bind_returns _ _ _ _ _ (get_Library_returns _ _ _ Hx')).
  rewrite (bind_returns _ _ _ _ _ (py_str_library _ _ _ Hx')).
  rewrite Hitems. cbn [for_each].
  unfold bind at 1, print at 1. unfold bind at 1, print at 1.
  unfold bind at 1.
  erewrite (bind_returns (py_str (VRef other))).
  2:{ cbn [py_str]. unfold deref, bind. cbn [heap]. fold (heap w').
      rewrite Hy'. reflexivity. }
  unfold bind at 1, print at 1.
  unfold call_report_books, deref, bind. cbn [heap]. fold (heap w').
  rewrite Hy'. unfold raise. cbn [stdout heap w'].
  rewrite Hname. now rewrite <- !app_assoc.
Qed.

Lemma library_filed_as_shelf_witness :
  exists w',
    add_shelves 4%positive [VRef 4%positive]
      (mkWorld {[ 4%positive := OLibrary (mkLibrary "Bellevue" ∅) ]} [])
    = (Returns tt, w') /\
    get_shelf 4%positive (VStr "Bellevue") w' = (Returns (VRef 4%positive), w') /\
    report_all_books key_order 4%positive w'
    = (Raises (AttributeError "report_books"),
       mkWorld (heap w')
         ([] ++ ["= All Books at " ++ "Bellevue" ++ " ="; report_header;
                 "Shelf - " ++ "Bellevue"])).
Proof.
  apply (library_filed_as_shelf key_order
           (mkWorld {[ 4%positive := OLibrary (mkLibrary "Bellevue" ∅) ]} [])
           4%positive (mkLibrary "Bellevue" ∅)
           4%positive (mkLibrary "Bellevue" ∅)).
  - exact key_order_perm.
  - reflexivity.
  - reflexivity.
  - reflexivity.
Defined.

(** ** [enshelf] and [unshelf] in general *)

(** X21.  [enshelf] puts no Book on anything: whatever it is given as
    the shelf (a Shelf, a Library, a Book, a string, a number, [None]),
    the attribute [add_book] it calls does not exist, so it raises
    [AttributeError] and the store and the output stay as they are. *)
Theorem enshelf_always_raises (w : world) (self : loc) (shelf : value) :
  value_ok w shelf ->
  enshelf self shelf w = (Raises (AttributeError "add_book"), w).
Proof.
  destruct shelf as [t|z| |l]; cbn [value_ok]; try reflexivity.
  intros [o Ho]. unfold enshelf, call_method. unfold_monad.
  rewrite Ho. now destruct o.
Qed.

Lemma enshelf_always_raises_witness :
  enshelf 2%positive (VRef 1%positive) dune_off_shelf
  = (Raises (AttributeError "add_book"), dune_off_shelf) /\
  enshelf 2%positive (VStr "Science Fiction") dune_off_shelf
  = (Raises (AttributeError "add_book"), dune_off_shelf).
Proof.
  split.
  - apply (enshelf_always_raises dune_off_shelf 2%positive (VRef 1%positive)).
    cbn. eexists. reflexivity.
  - apply (enshelf_always_raises dune_off_shelf 2%positive
             (VStr "Science Fiction")).
    exact I.
Defined.

(** X22.  [unshelf] takes no Book off a Shelf: it hands the Book itself
    to [remove_book] as the key, which is no key of the shelf, so the
    call returns, the not-found line with the whole text of the Book is
    printed, and the store stays as it is, also when the Book is on the
    shelf under its title. *)
Theorem unshelf_leaves_book
    (w : world) (self : loc) (shelf : loc) (s : Shelf) (b : Book) :
  heap w !! shelf = Some (OShelf s) ->
  heap w !! self = Some (OBook b) ->
  exists text,
    Book_str self w = (Returns text, w) /\
    unshelf self (VRef shelf) w
    = (Returns tt,
       mkWorld (heap w) (stdout w ++ [NotFound text (shelf_name s)])).
Proof.
  intros Hs Hb. exists (Book_text b).
  split; [apply (Book_str_returns _ _ _ Hb)|].
  assert (Hd : deref shelf w = (Returns (OShelf s), w))
    by (unfold deref; now rewrite Hs).
  assert (Hstr : py_str (VRef self) w = (Returns (Book_text b), w)).
  { cbn [py_str]. unfold deref, bind at 1. rewrite Hb.
    apply (Book_str_returns _ _ _ Hb). }
  unfold unshelf, call_method.
  erewrite (bind_returns (bind (deref shelf) _)).
  2:{ rewrite (bind_returns _ _ _ _ _ Hd), Shelf_method_remove_book.
      erewrite (bind_returns (remove_book shelf (VRef self))); [reflexivity|].
      unfold remove_book.
      rewrite (bind_returns _ _ _ _ _ (get_Shelf_returns _ _ _ Hs)).
      cbn [dict_get]. unfold not_found_in_shelf.
      rewrite (bind_returns _ _ _ _ _ Hstr). reflexivity. }
  reflexivity.
Qed.

Lemma unshelf_leaves_book_witness :
  exists text,
    Book_str 2%positive dune_on_shelf = (Returns text, dune_on_shelf) /\
    unshelf 2%positive (VRef 1%positive) dune_on_shelf
    = (Returns tt,
       mkWorld (heap dune_on_shelf)
               (stdout dune_on_shelf
                ++ [NotFound text
                      (shelf_name (science_fiction {[ "Dune" := 2%positive ]}))])).
Proof.
  apply (unshelf_leaves_book dune_on_shelf 2%positive 1%positive
           (science_fiction {[ "Dune" := 2%positive ]}) (dune 1 1));
    reflexivity.
Defined.

(** ** Copy operations and the filing of a shelf *)

(** X23.  Checking Books out and in and adding copies never disturbs a
    shelf: if every entry of a shelf is a Book filed under its own title,
    that still holds after any sequence of [add_copy], [check_out] and
    [check_in] on any Book, and the Shelf object itself is unchanged. *)
Theorem run_ops_keeps_filing
    (ops : list book_op) (w : world) (self : loc) (b : Book)
    (shelf : loc) (s : Shelf) :
  heap w !! self = Some (OBook b) ->
  heap w !! shelf = Some (OShelf s) ->
  filed_under_title w s ->
  exists w',
    run_ops self ops w = (Returns tt, w') /\
    heap w' !! shelf = Some (OShelf s) /\
    filed_under_title w' s.
Proof.
  revert w b. induction ops as [|op ops IH]; intros w b Hb Hs Hfiled.
  - exists w. now repeat split.
  - destruct (run_op_effect op w self b Hb)
      as (w1 & b1 & Hrun & Hb1 & (Ht & _) & _ & Hframe).
    assert (Hne : shelf <> self) by congruence.
    assert (Hs1 : heap w1 !! shelf = Some (OShelf s))
      by (rewrite (Hframe shelf Hne); exact Hs).
    assert (Hfiled1 : filed_under_title w1 s).
    { intros key l Hl. destruct (Hfiled key l Hl) as (b0 & Hb0 & Ht0).
      destruct (decide (l = self)) as [->|Hl'].
      - exists b1. split; [exact Hb1|]. congruence.
      - exists b0. split; [|exact Ht0]. now rewrite (Hframe l Hl'). }
    destruct (IH w1 b1 Hb1 Hs1 Hfiled1) as (w2 & Hrest & Hs2 & Hfiled2).
    exists w2. split; [|now split].
    unfold run_ops in *. now rewrite (for_each_cons_returns _ _ _ _ _ Hrun).
Qed.

Lemma run_ops_keeps_filing_witness :
  exists w',
    run_ops 2%positive [OpCheckOut; OpCheckOut; OpAddCopy; OpCheckIn]
            fantasy_world = (Returns tt, w') /\
    heap w' !! 1%positive = Some (OShelf fantasy) /\
    filed_under_title w' fantasy.
Proof.
  apply (run_ops_keeps_filing _ fantasy_world 2%positive (the_scar 1)
           1%positive fantasy);
    [reflexivity | reflexivity | exact fantasy_filed].
Defined.

(** ** [add_shelves] over a whole list of items *)

Lemma key_and_shelf_total item w :
  value_ok w item ->
  exists key l w1, key_and_shelf item w = (Returns (key, l), w1).
Proof.
  destruct item as [t|z| |li]; cbn [value_ok].
  - intros _. eexists _, _, _. now apply (key_and_shelf_literal (VStr t) t).
  - intros _. eexists _, _, _. now apply (key_and_shelf_literal (VInt z)).
  - intros _. eexists _, _, _. now apply (key_and_shelf_literal VNone).
  - intros [o Ho]. destruct o as [x|sh|b].
    + eexists _, _, _. exact (key_and_shelf_library _ _ _ Ho).
    + eexists _, _, _. exact (key_and_shelf_instance _ _ _ Ho).
    + eexists _, _, _.
      exact (key_and_shelf_book _ _ _ _ Ho (Book_str_returns _ _ _ Ho)).
Qed.

(** The loop body of [add_shelves] on a name that is in the library. *)
Lemma add_shelves_body_existing w self x item key to_add w1 existing :
  heap w !! self = Some (OLibrary x) ->
  key_and_shelf item w = (Returns (key, to_add), w1) ->
  _shelves x !! key = Some existing ->
  add_shelves_body self item w =
  (Returns tt, mkWorld (heap w1) (stdout w ++ [DuplicateShelf key])).
Proof.
  intros Hx Hk He.
  destruct (key_and_shelf_extends _ _ _ _ _ Hk) as [Hout Hext].
  unfold add_shelves_body.
  rewrite (bind_returns _ _ _ _ _ Hk).
  rewrite (bind_returns _ _ _ _ _ (get_Library_returns _ _ _ (Hext _ _ Hx))).
  rewrite He. unfold print. now rewrite Hout.
Qed.

(** One turn of the loop of [add_shelves]: a new shelf or a notice. *)
Lemma add_shelves_body_step item w self x :
  heap w !! self = Some (OLibrary x) ->
  value_ok w item ->
  exists w' x' notices,
    add_shelves_body self item w = (Returns tt, w') /\
    heap w' !! self = Some (OLibrary x') /\
    library_name x' = library_name x /\
    _shelves x ⊆ _shelves x' /\
    stdout w' = (stdout w ++ notices)%list /\
    Forall (fun line => exists key, line = DuplicateShelf key) notices /\
    (size (_shelves x') + length notices = S (size (_shelves x)))%nat /\
    (forall l, is_Some (heap w !! l) -> is_Some (heap w' !! l)).
Proof.
  intros Hx Hok.
  destruct (key_and_shelf_total item w Hok) as (key & l & w1 & Hk).
  destruct (key_and_shelf_extends _ _ _ _ _ Hk) as [Hout Hext].
  destruct (_shelves x !! key) as [existing|] eqn:Hin.
  - eexists _, x, [DuplicateShelf key].
    split; [apply (add_shelves_body_existing _ _ _ _ _ _ _ _ Hx Hk Hin)|].
    cbn [heap stdout length].
    split; [now apply Hext|]. split; [reflexivity|]. split; [reflexivity|].
    split; [reflexivity|]. split; [repeat constructor; eauto|].
    split; [lia|]. intros l0 [o Ho]. eauto.
  - eexists _, (set_shelves x (<[key := l]> (_shelves x))), [].
    split; [apply (add_shelves_body_new _ _ _ _ _ _ _ Hx Hk Hin)|].
    cbn [heap stdout length _shelves set_shelves library_name].
    split; [apply lookup_insert_eq|]. split; [reflexivity|].
    split; [now apply insert_subseteq|].
    split; [now rewrite app_nil_r|]. split; [constructor|].
    split; [rewrite map_size_insert_None by exact Hin; lia|].
    intros l0 [o Ho]. destruct (decide (l0 = self)) as [->|Hl].
    + rewrite lookup_insert_eq. eauto.
    + rewrite lookup_insert_ne by congruence. eauto.
Qed.

(** X24.  [add_shelves] accounts for every item of any list: the call
    returns, each item either adds one shelf or prints one
    [DuplicateShelf] notice (so shelves added plus notices printed equals
    the number of items), nothing but such notices is printed, the
    library keeps its name, and no entry it had is removed or replaced. *)
Theorem add_shelves_accounts_for_items (args : list value) :
  forall (w : world) (self : loc) (x : Library),
    heap w !! self = Some (OLibrary x) ->
    Forall (value_ok w) args ->
    exists w' x' notices,
      add_shelves self args w = (Returns tt, w') /\
      heap w' !! self = Some (OLibrary x') /\
      library_name x' = library_name x /\
      _shelves x ⊆ _shelves x' /\
      stdout w' = (stdout w ++ notices)%list /\
      Forall (fun line => exists key, line = DuplicateShelf key) notices /\
      (size (_shelves x') + length notices
       = size (_shelves x) + length args)%nat.
Proof.
  induction args as [|item args IH]; intros w self x Hx Hok.
  - exists w, x, []. cbn. rewrite app_nil_r.
    repeat split; auto; lia.
  - apply Forall_cons in Hok as [Hitem Hrest].
    destruct (add_shelves_body_step item w self x Hx Hitem)
      as (w1 & x1 & n1 & Hrun & Hx1 & Hname1 & Hsub1 & Hout1 & Hn1 & Hcount1
          & Hgrow).
    assert (Hrest1 : Forall (value_ok w1) args).
    { eapply Forall_impl; [exact Hrest|].
      intros [| | |l]; cbn; auto. }
    destruct (IH w1 self x1 Hx1 Hrest1)
      as (w2 & x2 & n2 & Hrun2 & Hx2 & Hname2 & Hsub2 & Hout2 & Hn2 & Hcount2).
    exists w2, x2, (n1 ++ n2)%list.
    split.
    { unfold add_shelves in *.
      now rewrite (for_each_cons_returns _ _ _ _ _ Hrun). }
    split; [exact Hx2|]. split; [congruence|].
    split; [now transitivity (_shelves x1)|].
    split; [rewrite Hout2, Hout1; now rewrite <- app_assoc|].
    split; [now apply Forall_app|].
    rewrite length_app. cbn [length]. lia.
Qed.

Lemma add_shelves_accounts_for_items_witness :
  exists w' x' notices,
    add_shelves 4%positive
      [VStr "Fantasy"; VStr "Poetry"; VRef 1%positive; VRef 2%positive;
       VStr "Poetry"]
      bellevue_world = (Returns tt, w') /\
    heap w' !! 4%positive = Some (OLibrary x') /\
    library_name x' = library_name bellevue /\
    _shelves bellevue ⊆ _shelves x' /\
    stdout w' = (stdout bellevue_world ++ notices)%list /\
    Forall (fun line => exists key, line = DuplicateShelf key) notices /\
    (size (_shelves x') + length notices
     = size (_shelves bellevue)
       + length [VStr "Fantasy"; VStr "Poetry"; VRef 1%positive;
                 VRef 2%positive; VStr "Poetry"])%nat.
Proof.
  apply (add_shelves_accounts_for_items _ bellevue_world 4%positive bellevue).
  - reflexivity.
  - repeat constructor; cbn; eexists; reflexivity.
Defined.
